(** * Deployment orchestrator (scripts/deploy.py): model and properties

    The class [DeploymentOrchestrator] drives [kubectl] through
    [subprocess.run].  The model below keeps the structure of the Python
    code: every method is a computation in a small state-and-exception
    monad, the object [self] is a record carried in the state, and every
    observable action (a [print], a [subprocess.run], a store to
    [self.rollback_revision]) is appended to a trace. *)

From Stdlib Require Import List ZArith NArith Bool String Ascii Lia.
From Stdlib Require DecimalString.
Import ListNotations.

Set Implicit Arguments.

(** ** Python strings *)

Module PyStr.

(** A Python [str] is a sequence of Unicode code points. *)
Definition char := N.
Definition str := list char.

Definition lit (s : string) : str :=
  map N_of_ascii (list_ascii_of_string s).

Definition str_eq_dec : forall a b : str, {a = b} + {a <> b} :=
  list_eq_dec N.eq_dec.

Definition str_eqb (a b : str) : bool :=
  if str_eq_dec a b then true else false.

(** [str.isspace] on one code point (CPython's [_PyUnicode_IsWhitespace]). *)
Definition isspace (c : char) : bool :=
  (((9 <=? c) && (c <=? 13)) || ((28 <=? c) && (c <=? 32))
   || (c =? 133) || (c =? 160) || (c =? 5760)
   || ((8192 <=? c) && (c <=? 8202))
   || (c =? 8232) || (c =? 8233) || (c =? 8239) || (c =? 8287)
   || (c =? 12288))%N.

Fixpoint lstrip (s : str) : str :=
  match s with
  | [] => []
  | c :: s' => if isspace c then lstrip s' else s
  end.

Definition rstrip (s : str) : str := rev (lstrip (rev s)).

(** [s.strip()] *)
Definition strip (s : str) : str := rstrip (lstrip s).

(** [s.split(sep)] for a one-character separator: never empty. *)
Fixpoint split_on (sep : char) (s : str) : list str :=
  match s with
  | [] => [[]]
  | c :: s' =>
      if (c =? sep)%N then [] :: split_on sep s'
      else match split_on sep s' with
           | l :: ls => (c :: l) :: ls
           | [] => [[c]]
           end
  end.

(** [s.split()]: maximal runs of non-whitespace; [cur] is the run being
    read, most recent character first. *)
Definition flush (cur : str) : list str :=
  match cur with [] => [] | _ :: _ => [rev cur] end.

Fixpoint split_from (cur : str) (s : str) : list str :=
  match s with
  | [] => flush cur
  | c :: s' =>
      if isspace c then flush cur ++ split_from [] s'
      else split_from (c :: cur) s'
  end.

Definition split (s : str) : list str := split_from [] s.

(** [str(n)] for an [int]. *)
Definition str_of_int (n : Z) : str :=
  lit (DecimalString.NilZero.string_of_int (Z.to_int n)).

Definition newline : char := 10%N.

End PyStr.
Import PyStr.

(** ** The control plane seen through [subprocess.run] *)

(** An exception object: every failure of [subprocess.run] ([OSError],
    [ValueError] from decoding, [SubprocessError]) and the [IndexError] of a
    subscript are instances of [Exception]. *)
Record exn := Exception { exn_class : string; exn_text : str }.

(** One invocation: the argument vector and whether [capture_output=True,
    text=True] was passed. *)
Record call := Call { argv : list str; capture : bool }.

Record completed := Completed { returncode : Z; stdout : str; stderr : str }.

Inductive outcome :=
| Returned (r : completed)
| Raised (e : exn).

(** The collaborator: what the next [subprocess.run] does, given every
    invocation made so far (the current one last). *)
Definition world := list call -> outcome.

(** One constructor per [print] statement, holding the interpolated values. *)
Inductive message :=
| MsgStarting (app : str)
| MsgCurrentRevision (shown : str)
| MsgFailedToApply
| MsgWaitingForRollout
| MsgRolloutFailed
| MsgRunningHealthChecks
| MsgHealthChecksFailed
| MsgDeploymentSuccessful (app : str)
| MsgCouldNotGetRevision (e : exn)
| MsgManifestApplied
| MsgErrorApplying (err : str)
| MsgExceptionApplying (e : exn)
| MsgExceptionWaiting (e : exn)
| MsgAllPodsRunning (n : nat)
| MsgSomePodsNotRunning (statuses : list str)
| MsgErrorPodHealth (e : exn)
| MsgServiceHasEndpoints (n : nat)
| MsgServiceNoEndpoints
| MsgErrorEndpoints (e : exn)
| MsgNoPreviousRevision
| MsgRollingBack (revision : str)
| MsgRollbackInitiated
| MsgRollbackFailed (e : exn).

Inductive event :=
| Print (m : message)
| Run (c : call)
| SetRollbackRevision (v : option str).

Definition trace := list event.

Fixpoint invocations (t : trace) : list call :=
  match t with
  | [] => []
  | Run c :: t' => c :: invocations t'
  | _ :: t' => invocations t'
  end.

(** ** The orchestrator object and the monad of its methods *)

Record orchestrator := Orchestrator {
  app_name : str;
  namespace : str;
  rollback_revision : option str
}.

(** [__init__] *)
Definition init (app ns : str) : orchestrator :=
  Orchestrator app ns None.

Record state := State { self : orchestrator; events : trace }.

Inductive result (A : Type) :=
| Ok (a : A)
| Exc (e : exn).
Arguments Exc {A} e.

Definition M (A : Type) := state -> result A * state.

Definition ret {A} (a : A) : M A := fun s => (Ok a, s).

Definition bind {A B} (m : M A) (k : A -> M B) : M B :=
  fun s => match m s with
           | (Ok a, s') => k a s'
           | (Exc e, s') => (Exc e, s')
           end.

Definition raise {A} (e : exn) : M A := fun s => (Exc e, s).

(** [try: body  except Exception as e: handler e] *)
Definition try_except {A} (body : M A) (handler : exn -> M A) : M A :=
  fun s => match body s with
           | (Ok a, s') => (Ok a, s')
           | (Exc e, s') => handler e s'
           end.

Declare Scope py_scope.
Delimit Scope py_scope with py.
Notation "x <- m ;; k" := (bind m (fun x => k))
  (at level 61, m at next level, right associativity) : py_scope.
Notation "m ;; k" := (bind m (fun _ => k))
  (at level 61, right associativity) : py_scope.
Local Open Scope py_scope.

Definition emit (e : event) : M unit :=
  fun s => (Ok tt, State (self s) (events s ++ [e])).

Definition print (m : message) : M unit := emit (Print m).

Definition get_self : M orchestrator := fun s => (Ok (self s), s).

(** [self.rollback_revision = v] *)
Definition set_rollback_revision (v : option str) : M unit :=
  fun s =>
    (Ok tt,
     State (Orchestrator (app_name (self s)) (namespace (self s)) v)
           (events s ++ [SetRollbackRevision v])).

(** [xs[0]] *)
Definition subscript0 (xs : list str) : M str :=
  match xs with
  | x :: _ => ret x
  | [] => raise (Exception "IndexError" (lit "list index out of range"))
  end.

(** Truth value of an [Optional[str]]: [None] and [''] are false. *)
Definition truthy (v : option str) : bool :=
  match v with
  | Some (_ :: _) => true
  | _ => false
  end.

(** [f"{v}"] for an [Optional[str]]. *)
Definition format_opt (v : option str) : str :=
  match v with
  | Some r => r
  | None => lit "None"
  end.

(** ** Argument vectors *)

Definition history_cmd (o : orchestrator) : call :=
  Call [lit "kubectl"; lit "rollout"; lit "history";
        lit "deployment/" ++ app_name o;
        lit "-n " ++ namespace o] true.

Definition apply_cmd (o : orchestrator) (manifest_path : str) : call :=
  Call [lit "kubectl"; lit "apply"; lit "-f"; manifest_path;
        lit "-n " ++ namespace o] true.

Definition status_cmd (o : orchestrator) (timeout : Z) : call :=
  Call [lit "kubectl"; lit "rollout"; lit "status";
        lit "deployment/" ++ app_name o;
        lit "-n " ++ namespace o;
        lit "--timeout=" ++ str_of_int timeout ++ lit "s"] true.

Definition pods_cmd (o : orchestrator) : call :=
  Call [lit "kubectl"; lit "get"; lit "pods";
        lit "-l"; lit "app=" ++ app_name o;
        lit "-n " ++ namespace o;
        lit "-o"; lit "jsonpath={.items[*].status.phase}"] true.

Definition endpoints_cmd (o : orchestrator) : call :=
  Call [lit "kubectl"; lit "get"; lit "endpoints";
        app_name o;
        lit "-n " ++ namespace o;
        lit "-o"; lit "jsonpath={.subsets[*].addresses[*].ip}"] true.

Definition undo_cmd (o : orchestrator) : call :=
  Call [lit "kubectl"; lit "rollout"; lit "undo";
        lit "deployment/" ++ app_name o;
        lit "--to-revision=" ++ format_opt (rollback_revision o);
        lit "-n " ++ namespace o] false.

(** ** The methods of [DeploymentOrchestrator] *)

Section Methods.

Variable env : world.

(** [subprocess.run(argv, ...)]: the invocation is recorded, then the
    collaborator either completes or makes the call raise. *)
Definition subprocess_run (c : call) : M completed :=
  fun s =>
    let s' := State (self s) (events s ++ [Run c]) in
    match env (invocations (events s')) with
    | Returned r => (Ok r, s')
    | Raised e => (Exc e, s')
    end.

(** A [try] body either executes a [return v] ([Some v]) or falls through
    to the statement after the [try] ([None]). *)
Definition returned_or {A} (r : option A) (fallthrough : A) : M A :=
  match r with
  | Some v => ret v
  | None => ret fallthrough
  end.

Definition _get_current_revision : M (option str) :=
  o <- get_self;;
  r <- try_except
         (result <- subprocess_run (history_cmd o);;
          if (returncode result =? 0)%Z then
            let lines := split_on newline (strip (stdout result)) in
            if (1 <? List.length lines)%nat then
              revision <- subscript0 (split (last lines []));;
              ret (Some (Some revision))
            else ret None
          else ret None)
         (fun e => print (MsgCouldNotGetRevision e);; ret None);;
  returned_or r None.

Definition _apply_manifest (manifest_path : str) : M bool :=
  o <- get_self;;
  try_except
    (result <- subprocess_run (apply_cmd o manifest_path);;
     if (returncode result =? 0)%Z then
       print MsgManifestApplied;; ret true
     else
       print (MsgErrorApplying (stderr result));; ret false)
    (fun e => print (MsgExceptionApplying e);; ret false).

Definition _wait_for_rollout (timeout : Z) : M bool :=
  o <- get_self;;
  try_except
    (result <- subprocess_run (status_cmd o timeout);;
     ret (returncode result =? 0)%Z)
    (fun e => print (MsgExceptionWaiting e);; ret false).

Definition _check_pod_health : M bool :=
  o <- get_self;;
  r <- try_except
         (result <- subprocess_run (pods_cmd o);;
          if (returncode result =? 0)%Z then
            let statuses := split (stdout result) in
            let all_running :=
              forallb (fun status => str_eqb status (lit "Running")) statuses in
            if all_running then
              print (MsgAllPodsRunning (List.length statuses));; ret (Some true)
            else
              print (MsgSomePodsNotRunning statuses);; ret (Some false)
          else ret None)
         (fun e => print (MsgErrorPodHealth e);; ret None);;
  returned_or r false.

Definition _check_service_endpoints : M bool :=
  o <- get_self;;
  r <- try_except
         (result <- subprocess_run (endpoints_cmd o);;
          if (returncode result =? 0)%Z then
            let endpoints := split (stdout result) in
            match endpoints with
            | _ :: _ =>
                print (MsgServiceHasEndpoints (List.length endpoints));;
                ret (Some true)
            | [] =>
                print MsgServiceNoEndpoints;; ret (Some false)
            end
          else ret None)
         (fun e => print (MsgErrorEndpoints e);; ret None);;
  returned_or r false.

(** The list [checks] is built in full before [all] looks at it. *)
Definition _run_health_checks (timeout : Z) : M bool :=
  pod <- _check_pod_health;;
  svc <- _check_service_endpoints;;
  let checks := [pod; svc] in
  ret (forallb (fun b => b) checks).

Definition _perform_rollback : M unit :=
  o <- get_self;;
  if negb (truthy (rollback_revision o)) then
    print MsgNoPreviousRevision;; ret tt
  else
    print (MsgRollingBack (format_opt (rollback_revision o)));;
    try_except
      (_ <- subprocess_run (undo_cmd o);;
       print MsgRollbackInitiated)
      (fun e => print (MsgRollbackFailed e)).

(** [a or b] on an [Optional[str]] and a [str]. *)
Definition py_or (a : option str) (b : str) : str :=
  if truthy a then format_opt a else b.

Definition deploy (manifest_path : str) : M bool :=
  o <- get_self;;
  print (MsgStarting (app_name o));;
  current <- _get_current_revision;;
  set_rollback_revision current;;
  o <- get_self;;
  print (MsgCurrentRevision
           (py_or (rollback_revision o) (lit "None (first deployment)")));;
  applied <- _apply_manifest manifest_path;;
  if negb applied then
    print MsgFailedToApply;; ret false
  else
    print MsgWaitingForRollout;;
    rolled <- _wait_for_rollout 300;;
    if negb rolled then
      print MsgRolloutFailed;; _perform_rollback;; ret false
    else
      print MsgRunningHealthChecks;;
      healthy <- _run_health_checks 60;;
      if negb healthy then
        print MsgHealthChecksFailed;; _perform_rollback;; ret false
      else
        o <- get_self;;
        print (MsgDeploymentSuccessful (app_name o));; ret true.

End Methods.

(** [main]: exit status of the process. *)
Definition main (env : world) (app manifest ns : str) : result Z * state :=
  match deploy env manifest (State (init app ns) []) with
  | (Ok success, s) => (Ok (if success then 0%Z else 1%Z), s)
  | (Exc e, s) => (Exc e, s)
  end.

(** * Vocabulary of the properties *)

(** ** What a method reads from the collaborator *)

(** The reply to the invocations [cs] made, in this order, from state [s]. *)
Definition reply (env : world) (s : state) (cs : list call) : outcome :=
  env (invocations (events s) ++ cs).

(** The state [s] after the events [t], the object unchanged. *)
Definition after (s : state) (t : trace) : state :=
  State (self s) (events s ++ t).

(** [returncode == 0], a raised call counting as a failure. *)
Definition exit_zero (o : outcome) : bool :=
  match o with
  | Returned r => (returncode r =? 0)%Z
  | Raised _ => false
  end.

(** The phases read from a reply to the pod query. *)
Definition phases (r : completed) : list str := split (stdout r).

(** The addresses read from a reply to the endpoints query. *)
Definition addresses (r : completed) : list str := split (stdout r).

(** The lines of a reply to the history query. *)
Definition history_lines (r : completed) : list str :=
  split_on newline (strip (stdout r)).

Definition Running : str := lit "Running".

(** ** Verdicts of the gates as functions of the collaborator's reply *)

(** What [_get_current_revision] makes of the reply to the history query. *)
Definition tracked_revision (o : outcome) : option str :=
  match o with
  | Returned r =>
      if (returncode r =? 0)%Z && (1 <? List.length (history_lines r))%nat
      then hd_error (split (last (history_lines r) []))
      else None
  | Raised _ => None
  end.

Definition pods_running (o : outcome) : bool :=
  match o with
  | Returned r =>
      (returncode r =? 0)%Z
      && forallb (fun status => str_eqb status Running) (phases r)
  | Raised _ => false
  end.

Definition endpoints_present (o : outcome) : bool :=
  match o with
  | Returned r =>
      (returncode r =? 0)%Z
      && match addresses r with [] => false | _ :: _ => true end
  | Raised _ => false
  end.

(** ** Actions and diagnostics in a trace *)

(** The diagnostics are the messages of the gates and of [deploy] itself;
    invocations, stores and the reports of [_perform_rollback] are the
    actions. *)
Definition is_action (e : event) : bool :=
  match e with
  | Print MsgNoPreviousRevision => true
  | Print (MsgRollingBack _) => true
  | Print MsgRollbackInitiated => true
  | Print (MsgRollbackFailed _) => true
  | Print _ => false
  | Run _ => true
  | SetRollbackRevision _ => true
  end.

Definition actions (t : trace) : trace := filter is_action t.

(** The values stored in [self.rollback_revision], in order. *)
Fixpoint stores (t : trace) : list (option str) :=
  match t with
  | [] => []
  | SetRollbackRevision v :: t' => v :: stores t'
  | _ :: t' => stores t'
  end.

(** Entries into [_perform_rollback]: its first statement on either path. *)
Definition is_rollback_entry (e : event) : bool :=
  match e with
  | Print MsgNoPreviousRevision => true
  | Print (MsgRollingBack _) => true
  | _ => false
  end.

Definition rollback_entries (t : trace) : nat :=
  List.length (filter is_rollback_entry t).

(** The [kubectl] subcommand of an invocation. *)
Definition verb (c : call) : list str := firstn 2 (tl (argv c)).

Definition is_undo (c : call) : bool :=
  if list_eq_dec str_eq_dec (verb c) [lit "rollout"; lit "undo"]
  then true else false.

Definition call_eq_dec : forall a b : call, {a = b} + {a <> b}.
Proof.
  decide equality; [apply Bool.bool_dec | apply (list_eq_dec str_eq_dec)].
Defined.

(** How often [c] was invoked in [t]. *)
Definition times_run (c : call) (t : trace) : nat :=
  count_occ call_eq_dec (invocations t) c.

(** ** One run of [deploy] from a state [s] *)

(** What [_perform_rollback] emits for the object [o], given the reply to
    its undo request. *)
Definition rollback_events (o : orchestrator) (undo_reply : outcome) : trace :=
  if truthy (rollback_revision o) then
    [Print (MsgRollingBack (format_opt (rollback_revision o)));
     Run (undo_cmd o);
     Print (match undo_reply with
            | Returned _ => MsgRollbackInitiated
            | Raised e => MsgRollbackFailed e
            end)]
  else [Print MsgNoPreviousRevision].

(** The revision the tracker reads at the start of the run. *)
Definition captured (env : world) (s : state) : option str :=
  tracked_revision (reply env s [history_cmd (self s)]).

(** The object once that revision is stored. *)
Definition tracking (env : world) (s : state) : orchestrator :=
  Orchestrator (app_name (self s)) (namespace (self s)) (captured env s).

(** The invocations of the run up to each gate. *)
Definition upto_apply (s : state) (m : str) : list call :=
  [history_cmd (self s); apply_cmd (self s) m].

Definition upto_status (s : state) (m : str) : list call :=
  upto_apply s m ++ [status_cmd (self s) 300].

Definition upto_pods (s : state) (m : str) : list call :=
  upto_status s m ++ [pods_cmd (self s)].

Definition upto_endpoints (s : state) (m : str) : list call :=
  upto_pods s m ++ [endpoints_cmd (self s)].

(** The verdict of each gate in the run: the Applier, the Waiter, and the
    two sub-checks of the Validator. *)
Definition applied (env : world) (s : state) (m : str) : bool :=
  exit_zero (reply env s (upto_apply s m)).

Definition rolled_out (env : world) (s : state) (m : str) : bool :=
  exit_zero (reply env s (upto_status s m)).

Definition pods_ok (env : world) (s : state) (m : str) : bool :=
  pods_running (reply env s (upto_pods s m)).

Definition endpoints_ok (env : world) (s : state) (m : str) : bool :=
  endpoints_present (reply env s (upto_endpoints s m)).

Definition healthy (env : world) (s : state) (m : str) : bool :=
  pods_ok env s m && endpoints_ok env s m.

(** The rollback issued after the invocations [script]. *)
Definition rollback_after (env : world) (s : state) (script : list call)
  : trace :=
  rollback_events (tracking env s)
    (reply env s (script ++ [undo_cmd (tracking env s)])).

(** What follows the apply command in a run. *)
Definition after_apply (env : world) (s : state) (m : str) : trace :=
  if applied env s m then
    Run (status_cmd (self s) 300)
    :: (if rolled_out env s m then
          [Run (pods_cmd (self s)); Run (endpoints_cmd (self s))]
          ++ (if healthy env s m then []
              else rollback_after env s (upto_endpoints s m))
        else rollback_after env s (upto_status s m))
  else [].

(** The actions of the whole run, in order. *)
Definition deploy_actions (env : world) (s : state) (m : str) : trace :=
  [Run (history_cmd (self s)); SetRollbackRevision (captured env s);
   Run (apply_cmd (self s) m)]
  ++ after_apply env s m.

Definition deploy_verdict (env : world) (s : state) (m : str) : bool :=
  applied env s m && rolled_out env s m && healthy env s m.

(** ** Failing gates *)

Definition applier_failed (env : world) (s : state) (m : str) : bool :=
  negb (applied env s m).

Definition waiter_failed (env : world) (s : state) (m : str) : bool :=
  applied env s m && negb (rolled_out env s m).

Definition validator_failed (env : world) (s : state) (m : str) : bool :=
  applied env s m && rolled_out env s m && negb (healthy env s m).

Definition gate_failed (env : world) (s : state) (m : str) : bool :=
  applier_failed env s m || waiter_failed env s m || validator_failed env s m.

(** The events a computation adds to the trace of [s]. *)
Definition emitted {A} (c : M A) (s : state) : trace :=
  skipn (List.length (events s)) (events (snd (c s))).

(** C1 as the specification words it: any failing gate leads to a rollback
    and to the answer [False]. *)
Definition rollback_on_any_failure (env : world) (s : state) (m : str) : Prop :=
  gate_failed env s m = true ->
  (1 <= rollback_entries (emitted (deploy env m) s))%nat
  /\ fst (deploy env m s) = Ok false.

(** C5 as the specification words it: success is logged exactly when the
    control plane accepted the undo request. *)
Definition reports_acceptance (env : world) (s : state) : Prop :=
  In (Print MsgRollbackInitiated) (emitted (_perform_rollback env) s)
  <-> exit_zero (reply env s [undo_cmd (self s)]) = true.

(** ** Concrete control planes *)

(** A collaborator that answers the [n]-th invocation with the [n]-th entry
    of a script, and makes every later invocation raise. *)
Definition scripted (replies : list outcome) : world :=
  fun h => nth (List.length h - 1) replies
               (Raised (Exception "OSError" (lit "kubectl: not found"))).

Definition completes (out : string) : outcome :=
  Returned (Completed 0 (lit out) []).

Definition rejects (err : string) : outcome :=
  Returned (Completed 1 [] (lit err)).

Definition sample_history : string :=
  "deployment.apps/web
REVISION  CHANGE-CAUSE
1         <none>
2         <none>
".

Definition web : orchestrator := init (lit "web") (lit "default").

Definition fresh : state := State web [].

Definition manifest : str := lit "web.yaml".

(** The object of a run that captured revision 2. *)
Definition web_at_2 : state :=
  State (Orchestrator (lit "web") (lit "default") (Some (lit "2"))) [].

(** History found, manifest rejected. *)
Definition env_apply_rejected : world :=
  scripted [completes sample_history; rejects "error: validation failed"].

(** History found, manifest applied, rollout not converging, undo accepted. *)
Definition env_rollout_failed : world :=
  scripted [completes sample_history; completes "configured";
            rejects "error: timed out"; completes "rolled back"].

(** The same, the undo request being rejected by the control plane. *)
Definition env_undo_rejected : world :=
  scripted [completes sample_history; completes "configured";
            rejects "error: timed out"; rejects "error: revision not found"].

(** First deployment: no history, and the rollout does not converge. *)
Definition env_first_deploy_failed : world :=
  scripted [rejects "Error from server (NotFound)"; completes "created";
            rejects "error: timed out"].

(** Rollout converged, the pod query finds no instance, one endpoint. *)
Definition env_no_pods : world :=
  scripted [completes sample_history; completes "configured";
            completes "rolled out"; completes ""; completes "10.0.0.7"].

(** Rollout converged, two running pods, no endpoint. *)
Definition env_no_endpoints : world :=
  scripted [completes "Running Running"; completes ""].

(** One pod still pending, one endpoint. *)
Definition env_pod_pending : world :=
  scripted [completes "Running Pending"; completes "10.0.0.7"].

(** Two running pods, one endpoint. *)
Definition env_serving : world :=
  scripted [completes "Running Running"; completes "10.0.0.7"].

(** The undo request is the first invocation, and the control plane rejects
    it. *)
Definition env_rejecting_undo : world :=
  scripted [rejects "error: unable to find specified revision"].

(** ** Words, lines and what each method prints *)

(** Only whitespace. *)
Definition blank (s : str) : bool := forallb isspace s.

(** No whitespace. *)
Definition solid (w : str) : bool := forallb (fun c => negb (isspace c)) w.

(** A non-empty run of non-whitespace characters. *)
Definition is_word (w : str) : bool :=
  match w with
  | [] => false
  | _ :: _ => solid w
  end.

Definition space : char := 32%N.

(** [" ".join(ws)]: the way a [jsonpath] range prints its items. *)
Fixpoint unwords (ws : list str) : str :=
  match ws with
  | [] => []
  | w :: ws' =>
      match ws' with
      | [] => w
      | _ :: _ => w ++ space :: unwords ws'
      end
  end.

(** [sep.join(ls)] for a one-character separator. *)
Fixpoint join_on (sep : char) (ls : list str) : str :=
  match ls with
  | [] => []
  | l :: ls' =>
      match ls' with
      | [] => l
      | _ :: _ => l ++ sep :: join_on sep ls'
      end
  end.

(** The diagnostics of each method, given the reply to its invocation. *)
Definition tracker_notes (r : outcome) : trace :=
  match r with
  | Returned c =>
      if (returncode c =? 0)%Z && (1 <? List.length (history_lines c))%nat
      then match split (last (history_lines c) []) with
           | [] => [Print (MsgCouldNotGetRevision
                             (Exception "IndexError"
                                        (lit "list index out of range")))]
           | _ :: _ => []
           end
      else []
  | Raised e => [Print (MsgCouldNotGetRevision e)]
  end.

Definition apply_notes (r : outcome) : trace :=
  match r with
  | Returned c =>
      if (returncode c =? 0)%Z then [Print MsgManifestApplied]
      else [Print (MsgErrorApplying (stderr c))]
  | Raised e => [Print (MsgExceptionApplying e)]
  end.

Definition wait_notes (r : outcome) : trace :=
  match r with
  | Returned _ => []
  | Raised e => [Print (MsgExceptionWaiting e)]
  end.

Definition pods_notes (r : outcome) : trace :=
  match r with
  | Returned c =>
      if (returncode c =? 0)%Z then
        if forallb (fun status => str_eqb status Running) (phases c)
        then [Print (MsgAllPodsRunning (List.length (phases c)))]
        else [Print (MsgSomePodsNotRunning (phases c))]
      else []
  | Raised e => [Print (MsgErrorPodHealth e)]
  end.

Definition endpoints_notes (r : outcome) : trace :=
  match r with
  | Returned c =>
      if (returncode c =? 0)%Z then
        match addresses c with
        | [] => [Print MsgServiceNoEndpoints]
        | _ :: _ => [Print (MsgServiceHasEndpoints (List.length (addresses c)))]
        end
      else []
  | Raised e => [Print (MsgErrorEndpoints e)]
  end.

(** Every event of a run of [deploy], in order. *)
Definition deploy_events (env : world) (s : state) (m : str) : trace :=
  [Print (MsgStarting (app_name (self s))); Run (history_cmd (self s))]
  ++ tracker_notes (reply env s [history_cmd (self s)])
  ++ [SetRollbackRevision (captured env s);
      Print (MsgCurrentRevision
               (py_or (captured env s) (lit "None (first deployment)")));
      Run (apply_cmd (self s) m)]
  ++ apply_notes (reply env s (upto_apply s m))
  ++ (if applied env s m then
        [Print MsgWaitingForRollout; Run (status_cmd (self s) 300)]
        ++ wait_notes (reply env s (upto_status s m))
        ++ (if rolled_out env s m then
              [Print MsgRunningHealthChecks; Run (pods_cmd (self s))]
              ++ pods_notes (reply env s (upto_pods s m))
              ++ [Run (endpoints_cmd (self s))]
              ++ endpoints_notes (reply env s (upto_endpoints s m))
              ++ (if healthy env s m then
                    [Print (MsgDeploymentSuccessful (app_name (self s)))]
                  else
                    Print MsgHealthChecksFailed
                    :: rollback_after env s (upto_endpoints s m))
            else
              Print MsgRolloutFailed
              :: rollback_after env s (upto_status s m))
      else [Print MsgFailedToApply]).

(** The four messages by which [deploy] announces how the run ended. *)
Definition is_outcome_message (e : event) : bool :=
  match e with
  | Print MsgFailedToApply => true
  | Print MsgRolloutFailed => true
  | Print MsgHealthChecksFailed => true
  | Print (MsgDeploymentSuccessful _) => true
  | _ => false
  end.

(** The message announcing the end of the run from [s]. *)
Definition outcome_message (env : world) (s : state) (m : str) : message :=
  if negb (applied env s m) then MsgFailedToApply
  else if negb (rolled_out env s m) then MsgRolloutFailed
  else if negb (healthy env s m) then MsgHealthChecksFailed
  else MsgDeploymentSuccessful (app_name (self s)).

(** The undo request of the run from [s], if it makes one. *)
Definition undo_of_run (env : world) (s : state) (m : str) : list call :=
  if truthy (captured env s) && applied env s m
     && negb (deploy_verdict env s m)
  then [undo_cmd (tracking env s)] else [].

(** How many of the five forward commands the run from [s] reaches. *)
Definition reached (env : world) (s : state) (m : str) : nat :=
  if applied env s m then if rolled_out env s m then 5 else 3 else 2.

(** Every gate passes: history found, two running pods, one endpoint. *)
Definition env_all_passing : world :=
  scripted [completes sample_history; completes "configured";
            completes "rolled out"; completes "Running Running";
            completes "10.0.0.7"].

(** A control plane that cannot be reached: every invocation raises. *)
Definition env_unreachable : world := scripted [].

(** * The methods under both kinds of Python exception *)

(** An exception that is not an instance of [Exception]
    ([KeyboardInterrupt], [SystemExit]): [except Exception] does not catch
    it.  The exceptions of type [exn] are the instances of [Exception]. *)
Record base_exn := BaseException { base_class : string; base_text : str }.

Module Strict.

(** What one [subprocess.run] does: it completes, raises an [Exception], or
    raises outside [Exception]. *)
Inductive reaction :=
| Completes (r : completed)
| Raises (e : exn)
| Interrupts (b : base_exn).

(** The collaborator, given every invocation made so far. *)
Definition plane := list call -> reaction.

Inductive ending (A : Type) :=
| Value (a : A)
| Throws (e : exn)
| Escapes (b : base_exn).
Arguments Throws {A} e.
Arguments Escapes {A} b.

Definition Py (A : Type) := state -> ending A * state.

Definition ret {A} (a : A) : Py A := fun s => (Value a, s).

Definition bind {A B} (m : Py A) (k : A -> Py B) : Py B :=
  fun s => match m s with
           | (Value a, s') => k a s'
           | (Throws e, s') => (Throws e, s')
           | (Escapes b, s') => (Escapes b, s')
           end.

Definition raise {A} (e : exn) : Py A := fun s => (Throws e, s).

(** [try: body  except Exception as e: handler e]: only an instance of
    [Exception] reaches the handler. *)
Definition try_except {A} (body : Py A) (handler : exn -> Py A) : Py A :=
  fun s => match body s with
           | (Value a, s') => (Value a, s')
           | (Throws e, s') => handler e s'
           | (Escapes b, s') => (Escapes b, s')
           end.

Declare Scope strict_scope.
Delimit Scope strict_scope with strict.
Notation "x <- m ;; k" := (bind m (fun x => k))
  (at level 61, m at next level, right associativity) : strict_scope.
Notation "m ;; k" := (bind m (fun _ => k))
  (at level 61, right associativity) : strict_scope.

Definition emit (e : event) : Py unit :=
  fun s => (Value tt, State (self s) (events s ++ [e])).

Definition print (m : message) : Py unit := emit (Print m).

Definition get_self : Py orchestrator := fun s => (Value (self s), s).

(** [self.rollback_revision = v] *)
Definition set_rollback_revision (v : option str) : Py unit :=
  fun s =>
    (Value tt,
     State (Orchestrator (app_name (self s)) (namespace (self s)) v)
           (events s ++ [SetRollbackRevision v])).

(** [xs[0]] *)
Definition subscript0 (xs : list str) : Py str :=
  match xs with
  | x :: _ => ret x
  | [] => raise (Exception "IndexError" (lit "list index out of range"))
  end.

Definition returned_or {A} (r : option A) (fallthrough : A) : Py A :=
  match r with
  | Some v => ret v
  | None => ret fallthrough
  end.

Section StrictMethods.

Variable env : plane.

Definition subprocess_run (c : call) : Py completed :=
  fun s =>
    let s' := State (self s) (events s ++ [Run c]) in
    match env (invocations (events s')) with
    | Completes r => (Value r, s')
    | Raises e => (Throws e, s')
    | Interrupts b => (Escapes b, s')
    end.

Definition _get_current_revision : Py (option str) :=
  (o <- get_self;;
   r <- try_except
          (result <- subprocess_run (history_cmd o);;
           if (returncode result =? 0)%Z then
             let lines := split_on newline (strip (stdout result)) in
             if (1 <? List.length lines)%nat then
               revision <- subscript0 (split (last lines []));;
               ret (Some (Some revision))
             else ret None
           else ret None)
          (fun e => print (MsgCouldNotGetRevision e);; ret None);;
   returned_or r None)%strict.

Definition _apply_manifest (manifest_path : str) : Py bool :=
  (o <- get_self;;
   try_except
     (result <- subprocess_run (apply_cmd o manifest_path);;
      if (returncode result =? 0)%Z then
        print MsgManifestApplied;; ret true
      else
        print (MsgErrorApplying (stderr result));; ret false)
     (fun e => print (MsgExceptionApplying e);; ret false))%strict.

Definition _wait_for_rollout (timeout : Z) : Py bool :=
  (o <- get_self;;
   try_except
     (result <- subprocess_run (status_cmd o timeout);;
      ret (returncode result =? 0)%Z)
     (fun e => print (MsgExceptionWaiting e);; ret false))%strict.

Definition _check_pod_health : Py bool :=
  (o <- get_self;;
   r <- try_except
          (result <- subprocess_run (pods_cmd o);;
           if (returncode result =? 0)%Z then
             let statuses := split (stdout result) in
             let all_running :=
               forallb (fun status => str_eqb status (lit "Running"))
                       statuses in
             if all_running then
               print (MsgAllPodsRunning (List.length statuses));;
               ret (Some true)
             else
               print (MsgSomePodsNotRunning statuses);; ret (Some false)
           else ret None)
          (fun e => print (MsgErrorPodHealth e);; ret None);;
   returned_or r false)%strict.

Definition _check_service_endpoints : Py bool :=
  (o <- get_self;;
   r <- try_except
          (result <- subprocess_run (endpoints_cmd o);;
           if (returncode result =? 0)%Z then
             let endpoints := split (stdout result) in
             match endpoints with
             | _ :: _ =>
                 print (MsgServiceHasEndpoints (List.length endpoints));;
                 ret (Some true)
             | [] =>
                 print MsgServiceNoEndpoints;; ret (Some false)
             end
           else ret None)
          (fun e => print (MsgErrorEndpoints e);; ret None);;
   returned_or r false)%strict.

Definition _run_health_checks (timeout : Z) : Py bool :=
  (pod <- _check_pod_health;;
   svc <- _check_service_endpoints;;
   let checks := [pod; svc] in
   ret (forallb (fun b => b) checks))%strict.

Definition _perform_rollback : Py unit :=
  (o <- get_self;;
   if negb (truthy (rollback_revision o)) then
     print MsgNoPreviousRevision;; ret tt
   else
     print (MsgRollingBack (format_opt (rollback_revision o)));;
     try_except
       (_ <- subprocess_run (undo_cmd o);;
        print MsgRollbackInitiated)
       (fun e => print (MsgRollbackFailed e)))%strict.

Definition deploy (manifest_path : str) : Py bool :=
  (o <- get_self;;
   print (MsgStarting (app_name o));;
   current <- _get_current_revision;;
   set_rollback_revision current;;
   o <- get_self;;
   print (MsgCurrentRevision
            (py_or (rollback_revision o) (lit "None (first deployment)")));;
   applied <- _apply_manifest manifest_path;;
   if negb applied then
     print MsgFailedToApply;; ret false
   else
     print MsgWaitingForRollout;;
     rolled <- _wait_for_rollout 300;;
     if negb rolled then
       print MsgRolloutFailed;; _perform_rollback;; ret false
     else
       print MsgRunningHealthChecks;;
       healthy <- _run_health_checks 60;;
       if negb healthy then
         print MsgHealthChecksFailed;; _perform_rollback;; ret false
       else
         o <- get_self;;
         print (MsgDeploymentSuccessful (app_name o));; ret true)%strict.

End StrictMethods.

(** [main]: exit status of the process, unless an exception leaves it. *)
Definition main (env : plane) (app manifest ns : str) : ending Z * state :=
  match deploy env manifest (State (init app ns) []) with
  | (Value success, s) => (Value (if success then 0%Z else 1%Z), s)
  | (Throws e, s) => (Throws e, s)
  | (Escapes b, s) => (Escapes b, s)
  end.

(** The reply to the invocations [cs] made, in this order, from [s]. *)
Definition reply (env : plane) (s : state) (cs : list call) : reaction :=
  env (invocations (events s) ++ cs).

(** The collaborator never raises outside [Exception]. *)
Definition orderly (env : plane) : Prop :=
  forall cs b, env cs <> Interrupts b.

(** A scripted collaborator; later invocations raise an [OSError]. *)
Definition scripted (replies : list reaction) : plane :=
  fun h => nth (List.length h - 1) replies
               (Raises (Exception "OSError" (lit "kubectl: not found"))).

End Strict.

(** An orderly collaborator as a [world]. *)
Definition lower (env : Strict.plane) : world :=
  fun cs => match env cs with
            | Strict.Completes r => Returned r
            | Strict.Raises e => Raised e
            | Strict.Interrupts b =>
                Raised (Exception (base_class b) (base_text b))
            end.

(** A result of [M] as an ending of [Strict.Py]. *)
Definition inject {A} (r : result A * state) : Strict.ending A * state :=
  match r with
  | (Ok a, s) => (Strict.Value a, s)
  | (Exc e, s) => (Strict.Throws e, s)
  end.

(** The two computations do the same from every state. *)
Definition agree {A} (p : Strict.Py A) (m : M A) : Prop :=
  forall s, p s = inject (m s).

(** C10 as the specification words it: [deploy] returns a boolean. *)
Definition returns_a_boolean (env : Strict.plane) (m : str) (s : state)
  : Prop :=
  exists b s', Strict.deploy env m s = (Strict.Value b, s').

Definition keyboard_interrupt : base_exn :=
  BaseException "KeyboardInterrupt" [].

(** The operator interrupts the wait for the rollout. *)
Definition env_interrupted : Strict.plane :=
  Strict.scripted
    [Strict.Completes (Completed 0 (lit sample_history) []);
     Strict.Completes (Completed 0 (lit "configured") []);
     Strict.Interrupts keyboard_interrupt].

(** The control plane cannot be reached: every invocation raises an
    [OSError]. *)
Definition env_down : Strict.plane := Strict.scripted [].

(** ** Histories without a revision *)

(** What [kubectl rollout history] prints for a deployment without history. *)
Definition no_history_text : string :=
  "deployment.apps/web
No rollout history found.
".

(** The headers of a history listing, without any record. *)
Definition header_only_text : string :=
  "deployment.apps/web
REVISION  CHANGE-CAUSE
".

(** No history, and the rollout does not converge. *)
Definition env_no_history_rollout_failed : world :=
  scripted [completes no_history_text; completes "created";
            rejects "error: timed out"; rejects "error: revision not found"].

(** First deployment: the history query fails and the manifest is
    rejected. *)
Definition env_first_deploy_apply_rejected : world :=
  scripted [rejects "Error from server (NotFound)";
            rejects "error: validation failed"].

(** * Properties *)

(** ** Facts on strings *)

Section StringFacts.

Lemma rev_cons_not_nil (A : Type) (c : A) (l : list A) : rev (c :: l) <> [].
Proof.
  simpl. intro H. apply app_eq_nil in H. destruct H as [_ H]. discriminate.
Qed.

Lemma flush_nonempty (cur x : str) : In x (flush cur) -> x <> [].
Proof.
  destruct cur as [|c cur]; simpl; [tauto|].
  intros [<-|[]]. apply (rev_cons_not_nil c cur).
Qed.

(** Every word of [s.split()] has at least one character. *)
Lemma split_from_nonempty (s cur x : str) :
  In x (split_from cur s) -> x <> [].
Proof.
  revert cur. induction s as [|c s IH]; intros cur; simpl.
  - apply flush_nonempty.
  - destruct (isspace c).
    + intros H. apply in_app_or in H. destruct H as [H|H].
      * now apply flush_nonempty in H.
      * now apply IH in H.
    + apply IH.
Qed.

Lemma split_nonempty (s x : str) : In x (split s) -> x <> [].
Proof. apply split_from_nonempty. Qed.

(** A string ending in a non-blank character has at least one word. *)
Lemma split_from_ends_nonblank (t cur : str) (c : char) :
  isspace c = false -> split_from cur (t ++ [c]) <> [].
Proof.
  intros Hc. revert cur. induction t as [|a t IH]; intros cur; simpl.
  - rewrite Hc. simpl. destruct (rev cur); discriminate.
  - destruct (isspace a).
    + intro H. apply app_eq_nil in H. destruct H as [_ H]. now apply IH in H.
    + apply IH.
Qed.

Lemma lstrip_head (s t : str) (c : char) :
  lstrip s = c :: t -> isspace c = false.
Proof.
  induction s as [|a s IH]; simpl; [discriminate|].
  destruct (isspace a) eqn:Ha; [exact IH|].
  intros H. injection H as -> _. exact Ha.
Qed.

(** [s.strip()] does not end in a blank character. *)
Lemma strip_last (s t : str) (c : char) :
  strip s = t ++ [c] -> isspace c = false.
Proof.
  unfold strip, rstrip. intros H.
  apply (f_equal (@rev char)) in H.
  rewrite rev_involutive, rev_app_distr in H. simpl in H.
  now apply lstrip_head in H.
Qed.

Lemma split_on_not_nil (sep : char) (s : str) : split_on sep s <> [].
Proof.
  destruct s as [|c s]; simpl; [discriminate|].
  destruct (c =? sep)%N; [discriminate|].
  destruct (split_on sep s); discriminate.
Qed.

(** The last piece of [s.split(sep)] is the part of [s] after the last
    separator. *)
Lemma split_on_last (sep : char) (s : str) :
  exists p,
    s = p ++ last (split_on sep s) [] /\
    (List.length (split_on sep s) = 1%nat -> p = []) /\
    (1 < List.length (split_on sep s) -> exists q, p = q ++ [sep])%nat.
Proof.
  induction s as [|c s (p & Hs & H1 & Hn)].
  - exists []. simpl. repeat split; auto. lia.
  - simpl. destruct (N.eqb_spec c sep) as [->|Hc].
    + exists (sep :: p).
      pose proof (split_on_not_nil sep s) as Hne.
      destruct (split_on sep s) as [|l ls] eqn:E; [contradiction|].
      cbn [last List.length]. repeat split.
      * simpl. now f_equal.
      * discriminate.
      * intros _. destruct ls as [|l' ls'].
        { rewrite (H1 eq_refl). now exists []. }
        { destruct Hn as (q & ->); [simpl; lia|]. now exists (sep :: q). }
    + pose proof (split_on_not_nil sep s) as Hne.
      destruct (split_on sep s) as [|l ls] eqn:E; [contradiction|].
      destruct ls as [|l' ls'].
      * exists []. simpl in *. rewrite (H1 eq_refl) in Hs. simpl in Hs.
        repeat split; [now f_equal | lia].
      * exists (c :: p). cbn [last List.length] in *. repeat split.
        { simpl. now f_equal. }
        { discriminate. }
        { intros _. destruct Hn as (q & ->); [lia|]. now exists (c :: q). }
Qed.

(** With more than one line in the stripped output, the last line has a
    first field: the subscript [[0]] cannot fail there. *)
Lemma last_line_has_field (out : str) :
  (1 < List.length (split_on newline (strip out)))%nat ->
  split (last (split_on newline (strip out)) []) <> [].
Proof.
  intros Hlen.
  destruct (split_on_last newline (strip out)) as (p & Hs & _ & Hn).
  destruct (Hn Hlen) as (q & ->).
  destruct (last (split_on newline (strip out)) []) as [|a l] eqn:E
    using rev_ind.
  - rewrite app_nil_r in Hs. apply strip_last in Hs. discriminate.
  - rewrite app_assoc in Hs. apply strip_last in Hs.
    now apply split_from_ends_nonblank.
Qed.

End StringFacts.

(** ** Facts on traces *)

Section TraceFacts.

Lemma invocations_app (t1 t2 : trace) :
  invocations (t1 ++ t2) = invocations t1 ++ invocations t2.
Proof.
  induction t1 as [|[m|c|v] t1 IH]; simpl; auto. now rewrite IH.
Qed.

Lemma stores_app (t1 t2 : trace) : stores (t1 ++ t2) = stores t1 ++ stores t2.
Proof.
  induction t1 as [|[m|c|v] t1 IH]; simpl; auto. now rewrite IH.
Qed.

Lemma actions_app (t1 t2 : trace) :
  actions (t1 ++ t2) = actions t1 ++ actions t2.
Proof. apply filter_app. Qed.

Lemma invocations_actions (t : trace) : invocations (actions t) = invocations t.
Proof.
  induction t as [|[m|c|v] t IH]; simpl; auto.
  - destruct m; simpl; auto.
  - now rewrite IH.
Qed.

Lemma stores_actions (t : trace) : stores (actions t) = stores t.
Proof.
  induction t as [|[m|c|v] t IH]; simpl; auto.
  - destruct m; simpl; auto.
  - now rewrite IH.
Qed.

Lemma rollback_entries_actions (t : trace) :
  rollback_entries (actions t) = rollback_entries t.
Proof.
  unfold rollback_entries.
  induction t as [|[m|c|v] t IH]; simpl; auto.
  destruct m; simpl; auto.
Qed.

Lemma times_run_actions (c : call) (t : trace) :
  times_run c (actions t) = times_run c t.
Proof. unfold times_run. now rewrite invocations_actions. Qed.

Lemma after_after (s : state) (t1 t2 : trace) :
  after (after s t1) t2 = after s (t1 ++ t2).
Proof. unfold after. simpl. now rewrite app_assoc. Qed.

Lemma reply_after (env : world) (s : state) (t : trace) (cs : list call) :
  reply env (after s t) cs = reply env s (invocations (actions t) ++ cs).
Proof.
  unfold reply, after. simpl.
  now rewrite invocations_app, invocations_actions, app_assoc.
Qed.

End TraceFacts.

(** ** Each method as a function of the collaborator's replies *)

Section Gates.

Variable env : world.

Lemma subprocess_run_eq (c : call) (s : state) :
  subprocess_run env c s =
  (match reply env s [c] with Returned r => Ok r | Raised e => Exc e end,
   after s [Run c]).
Proof.
  unfold subprocess_run, reply, after. cbn [events self].
  rewrite invocations_app. simpl.
  now destruct (env (invocations (events s) ++ [c])).
Qed.

Ltac unfold_monad :=
  unfold bind, try_except, get_self, ret, raise, print, emit, returned_or,
    subscript0.

Ltac tidy :=
  unfold_monad; unfold after; cbn [self events];
  rewrite <- ?app_assoc; cbn [app].

(** The Revision Tracker always returns, and issues the history query once. *)
Lemma get_current_revision_run (s : state) :
  exists t,
    _get_current_revision env s =
      (Ok (tracked_revision (reply env s [history_cmd (self s)])), after s t)
    /\ actions t = [Run (history_cmd (self s))].
Proof.
  unfold _get_current_revision, tracked_revision, history_lines. unfold_monad.
  rewrite subprocess_run_eq.
  destruct (reply env s [history_cmd (self s)]) as [r|e].
  - destruct (returncode r =? 0)%Z; cbn [andb].
    + destruct (1 <? List.length (split_on newline (strip (stdout r))))%nat.
      * destruct (split (last (split_on newline (strip (stdout r))) []))
          as [|x xs]; cbn [hd_error]; tidy; eexists; split; reflexivity.
      * tidy. eexists; split; reflexivity.
    + tidy. eexists; split; reflexivity.
  - tidy. eexists; split; reflexivity.
Qed.

Lemma apply_manifest_run (manifest_path : str) (s : state) :
  exists t,
    _apply_manifest env manifest_path s =
      (Ok (exit_zero (reply env s [apply_cmd (self s) manifest_path])),
       after s t)
    /\ actions t = [Run (apply_cmd (self s) manifest_path)].
Proof.
  unfold _apply_manifest, exit_zero. unfold_monad.
  rewrite subprocess_run_eq.
  destruct (reply env s [apply_cmd (self s) manifest_path]) as [r|e].
  - destruct (returncode r =? 0)%Z; tidy; eexists; split; reflexivity.
  - tidy. eexists; split; reflexivity.
Qed.

Lemma wait_for_rollout_run (timeout : Z) (s : state) :
  exists t,
    _wait_for_rollout env timeout s =
      (Ok (exit_zero (reply env s [status_cmd (self s) timeout])), after s t)
    /\ actions t = [Run (status_cmd (self s) timeout)].
Proof.
  unfold _wait_for_rollout, exit_zero. unfold_monad.
  rewrite subprocess_run_eq.
  destruct (reply env s [status_cmd (self s) timeout]) as [r|e];
    tidy; eexists; split; reflexivity.
Qed.

Lemma check_pod_health_run (s : state) :
  exists t,
    _check_pod_health env s =
      (Ok (pods_running (reply env s [pods_cmd (self s)])), after s t)
    /\ actions t = [Run (pods_cmd (self s))].
Proof.
  unfold _check_pod_health, pods_running, phases, Running. unfold_monad.
  rewrite subprocess_run_eq.
  destruct (reply env s [pods_cmd (self s)]) as [r|e].
  - destruct (returncode r =? 0)%Z; cbn [andb].
    + destruct (forallb _ (split (stdout r)));
        tidy; eexists; split; reflexivity.
    + tidy. eexists; split; reflexivity.
  - tidy. eexists; split; reflexivity.
Qed.

Lemma check_service_endpoints_run (s : state) :
  exists t,
    _check_service_endpoints env s =
      (Ok (endpoints_present (reply env s [endpoints_cmd (self s)])),
       after s t)
    /\ actions t = [Run (endpoints_cmd (self s))].
Proof.
  unfold _check_service_endpoints, endpoints_present, addresses. unfold_monad.
  rewrite subprocess_run_eq.
  destruct (reply env s [endpoints_cmd (self s)]) as [r|e].
  - destruct (returncode r =? 0)%Z; cbn [andb].
    + destruct (split (stdout r)); tidy; eexists; split; reflexivity.
    + tidy. eexists; split; reflexivity.
  - tidy. eexists; split; reflexivity.
Qed.

End Gates.

(** ** The whole run of [deploy] *)

Section Run.

Variable env : world.

Lemma run_health_checks_run (timeout : Z) (s : state) :
  exists t,
    _run_health_checks env timeout s =
      (Ok (pods_running (reply env s [pods_cmd (self s)])
           && endpoints_present
                (reply env s [pods_cmd (self s); endpoints_cmd (self s)])),
       after s t)
    /\ actions t = [Run (pods_cmd (self s)); Run (endpoints_cmd (self s))].
Proof.
  unfold _run_health_checks, bind.
  destruct (check_pod_health_run env s) as (t1 & -> & A1).
  destruct (check_service_endpoints_run env (after s t1)) as (t2 & -> & A2).
  rewrite reply_after, A1, after_after. cbn [invocations app self after].
  exists (t1 ++ t2). unfold ret. cbn [forallb]. rewrite andb_true_r.
  split; [reflexivity|]. now rewrite actions_app, A1, A2.
Qed.

Lemma perform_rollback_run (s : state) :
  _perform_rollback env s =
  (Ok tt,
   after s (rollback_events (self s) (reply env s [undo_cmd (self s)]))).
Proof.
  unfold _perform_rollback, rollback_events, bind, get_self.
  destruct (truthy (rollback_revision (self s))); cbn [negb].
  - unfold print, emit, try_except, bind.
    set (announce := Print (MsgRollingBack
                              (format_opt (rollback_revision (self s))))).
    change (State (self s) (events s ++ [announce]))
      with (after s [announce]).
    rewrite subprocess_run_eq, reply_after.
    cbn [actions filter is_action invocations app self after].
    subst announce. cbn [actions filter is_action invocations app].
    destruct (reply env s [undo_cmd (self s)]);
      unfold after; cbn [self events]; rewrite <- ?app_assoc; reflexivity.
  - reflexivity.
Qed.

Lemma actions_rollback_events (o : orchestrator) (r : outcome) :
  actions (rollback_events o r) = rollback_events o r.
Proof.
  unfold rollback_events.
  destruct (truthy (rollback_revision o)); [|reflexivity].
  now destruct r.
Qed.

Lemma bind_ok {A B} (c : M A) (k : A -> M B) (s s' : state) (a : A) :
  c s = (Ok a, s') -> bind c k s = k a s'.
Proof. unfold bind. now intros ->. Qed.
Arguments bind_ok {A B c} k {s s' a} _.

Lemma reply_at (o : orchestrator) (s : state) (t : trace) (cs : list call) :
  reply env (State o (events s ++ t)) cs
  = reply env s (invocations (actions t) ++ cs).
Proof.
  unfold reply. cbn [events].
  now rewrite invocations_app, invocations_actions, app_assoc.
Qed.

Ltac step_pure :=
  match goal with
  | |- context [bind get_self ?k ?s] =>
      change (bind get_self k s) with (k (self s) s)
  | |- context [bind (print ?x) ?k ?s] =>
      change (bind (print x) k s) with (k tt (after s [Print x]))
  | |- context [bind (set_rollback_revision ?v) ?k ?s] =>
      change (bind (set_rollback_revision v) k s)
        with (k tt (State (Orchestrator (app_name (self s))
                                        (namespace (self s)) v)
                          (events s ++ [SetRollbackRevision v])))
  end; cbv beta.

Ltac norm :=
  unfold after; cbn [self events app_name namespace rollback_revision];
  rewrite <- ?app_assoc.

Ltac same_target :=
  change (apply_cmd (tracking env ?s) ?m) with (apply_cmd (self s) m) in *;
  change (status_cmd (tracking env ?s) ?n) with (status_cmd (self s) n) in *;
  change (pods_cmd (tracking env ?s)) with (pods_cmd (self s)) in *;
  change (endpoints_cmd (tracking env ?s)) with (endpoints_cmd (self s)) in *.

Ltac use_gate H t A :=
  let E := fresh "E" in
  destruct H as (t & E & A);
  unfold after in E; cbn [self events] in E, A;
  rewrite ?reply_at in E; rewrite <- ?app_assoc in E;
  rewrite (bind_ok _ E); clear E; same_target.

Ltac simpl_actions :=
  unfold actions in *;
  repeat (rewrite ?filter_app; cbn [filter is_action]);
  repeat match goal with A : filter is_action _ = _ |- _ => rewrite A end;
  cbn [invocations app].

Ltac rollback_step script :=
  step_pure; norm;
  match goal with |- context [bind (_perform_rollback env) ?k ?st] =>
    rewrite (bind_ok k (perform_rollback_run st)) end;
  norm; rewrite reply_at; simpl_actions;
  match goal with |- context [reply env ?s ?cs] =>
    change cs with (script ++ [undo_cmd (tracking env s)])
  end;
  match goal with |- context [rollback_events (tracking env ?s) _] =>
    fold (rollback_after env s script)
  end;
  unfold ret.

(** The whole run: [deploy] always returns its verdict, leaves the captured
    revision in the object, and performs exactly [deploy_actions]. *)
Lemma deploy_run (m : str) (s : state) :
  exists t,
    deploy env m s =
      (Ok (deploy_verdict env s m), State (tracking env s) (events s ++ t))
    /\ actions t = deploy_actions env s m.
Proof.
  pose proof actions_rollback_events as RB. unfold actions in RB.
  unfold deploy.
  do 2 step_pure. norm.
  match goal with |- context [bind (_get_current_revision env) ?k ?st] =>
    use_gate (get_current_revision_run env st) t1 A1 end.
  simpl_actions. fold (captured env s).
  do 3 step_pure. norm. fold (tracking env s).
  match goal with |- context [bind (_apply_manifest env m) ?k ?st] =>
    use_gate (apply_manifest_run env m st) t2 A2 end.
  simpl_actions. fold (upto_apply s m). fold (applied env s m).
  unfold deploy_verdict, deploy_actions, after_apply.
  destruct (applied env s m) eqn:Happlied; cbn [negb andb].
  2:{ step_pure. norm. unfold ret.
      eexists. split; [reflexivity|]. simpl_actions. reflexivity. }
  step_pure. norm.
  match goal with |- context [bind (_wait_for_rollout env 300) ?k ?st] =>
    use_gate (wait_for_rollout_run env 300 st) t3 A3 end.
  simpl_actions.
  change [history_cmd (self s); apply_cmd (self s) m; status_cmd (self s) 300]
    with (upto_status s m).
  fold (rolled_out env s m).
  destruct (rolled_out env s m) eqn:Hrolled; cbn [negb andb].
  2:{ rollback_step (upto_status s m).
      eexists. split; [reflexivity|]. simpl_actions.
      unfold rollback_after. now rewrite RB. }
  step_pure. norm.
  match goal with |- context [bind (_run_health_checks env 60) ?k ?st] =>
    use_gate (run_health_checks_run 60 st) t4 A4 end.
  simpl_actions.
  change [history_cmd (self s); apply_cmd (self s) m; status_cmd (self s) 300;
          pods_cmd (self s)] with (upto_pods s m).
  change [history_cmd (self s); apply_cmd (self s) m; status_cmd (self s) 300;
          pods_cmd (self s); endpoints_cmd (self s)]
    with (upto_endpoints s m).
  fold (pods_ok env s m). fold (endpoints_ok env s m). fold (healthy env s m).
  destruct (healthy env s m) eqn:Hhealthy; cbn [negb].
  2:{ rollback_step (upto_endpoints s m).
      eexists. split; [reflexivity|]. simpl_actions.
      unfold rollback_after. now rewrite RB. }
  do 2 step_pure. norm. unfold ret.
  eexists. split; [reflexivity|]. simpl_actions. reflexivity.
Qed.

(** The verdicts of a run are what the gates return where [deploy] calls
    them: on the same application, after the invocations made so far. *)
Lemma gates_return_verdicts (m : str) (s s1 : state) :
  app_name (self s1) = app_name (self s) ->
  namespace (self s1) = namespace (self s) ->
  (invocations (events s1)
   = invocations (events s) ++ [history_cmd (self s)] ->
   fst (_apply_manifest env m s1) = Ok (applied env s m))
  /\ (invocations (events s1) = invocations (events s) ++ upto_apply s m ->
      fst (_wait_for_rollout env 300 s1) = Ok (rolled_out env s m))
  /\ (invocations (events s1) = invocations (events s) ++ upto_status s m ->
      fst (_run_health_checks env 60 s1) = Ok (healthy env s m)).
Proof.
  intros Ha Hn.
  assert (C1 : apply_cmd (self s1) m = apply_cmd (self s) m)
    by (unfold apply_cmd; now rewrite Hn).
  assert (C2 : status_cmd (self s1) 300 = status_cmd (self s) 300)
    by (unfold status_cmd; now rewrite Ha, Hn).
  assert (C3 : pods_cmd (self s1) = pods_cmd (self s))
    by (unfold pods_cmd; now rewrite Ha, Hn).
  assert (C4 : endpoints_cmd (self s1) = endpoints_cmd (self s))
    by (unfold endpoints_cmd; now rewrite Ha, Hn).
  repeat split; intros H.
  - destruct (apply_manifest_run env m s1) as (t & -> & _).
    unfold applied, reply, upto_apply. cbn [fst].
    now rewrite H, C1, <- app_assoc.
  - destruct (wait_for_rollout_run env 300 s1) as (t & -> & _).
    unfold rolled_out, reply, upto_status. cbn [fst].
    now rewrite H, C2, <- app_assoc.
  - destruct (run_health_checks_run 60 s1) as (t & -> & _).
    unfold healthy, pods_ok, endpoints_ok, reply, upto_endpoints, upto_pods.
    cbn [fst]. now rewrite H, C3, C4, <- !app_assoc.
Qed.

End Run.

(** ** The Revision Tracker *)

(** The tracker, case by case.  [_get_current_revision] always returns
    after one history query.  It returns [None] when the query raises, when
    it exits with a nonzero status, and when the stripped output has no
    line after the first.  Otherwise the last line of the output has a
    first field, and that field is returned, whatever the line is. *)
Theorem get_current_revision_spec (env : world) (s : state) :
  exists v t,
    _get_current_revision env s = (Ok v, after s t)
    /\ invocations t = [history_cmd (self s)]
    /\ match reply env s [history_cmd (self s)] with
       | Raised _ => v = None
       | Returned r =>
           if (returncode r =? 0)%Z then
             if (1 <? List.length (history_lines r))%nat then
               exists revision fields,
                 split (last (history_lines r) []) = revision :: fields
                 /\ v = Some revision
             else v = None
           else v = None
       end.
Proof.
  destruct (get_current_revision_run env s) as (t & E & A).
  exists (tracked_revision (reply env s [history_cmd (self s)])), t.
  split; [exact E|]. split.
  - now rewrite <- invocations_actions, A.
  - unfold tracked_revision.
    destruct (reply env s [history_cmd (self s)]) as [r|e]; [|reflexivity].
    destruct (returncode r =? 0)%Z; cbn [andb]; [|reflexivity].
    destruct (1 <? List.length (history_lines r))%nat eqn:Hlen; [|reflexivity].
    apply Nat.ltb_lt in Hlen. apply last_line_has_field in Hlen.
    fold (history_lines r) in Hlen.
    destruct (split (last (history_lines r) [])) as [|revision fields];
      [contradiction|].
    now exists revision, fields.
Qed.

(** ** The Health Validator *)

(** C2 (the code departs from the claim).  With a successful pod query that
    lists no instance, [_check_pod_health] reports ["All 0 pods are
    running"] and returns [True]: [all] of an empty list holds. *)
Theorem check_pod_health_accepts_zero_instances :
  reply (scripted [completes ""]) fresh [pods_cmd web] = completes ""
  /\ phases (Completed 0 (lit "") []) = []
  /\ _check_pod_health (scripted [completes ""]) fresh
     = (Ok true, after fresh [Run (pods_cmd web); Print (MsgAllPodsRunning 0)])
  /\ fst (deploy env_no_pods manifest fresh) = Ok true
  /\ In (Print (MsgAllPodsRunning 0))
        (events (snd (deploy env_no_pods manifest fresh))).
Proof.
  split; [reflexivity|]. split; [reflexivity|]. split; [reflexivity|].
  split; [reflexivity|]. vm_compute. tauto.
Qed.

(** C4.  [_run_health_checks] runs both sub-checks and returns the
    conjunction of their results.  All pods [Running] with no endpoint
    gives [False]; an endpoint with some pod not [Running] gives [False];
    all pods [Running] with an endpoint gives [True]. *)
Theorem run_health_checks_requires_both
  (env : world) (timeout : Z) (s : state) :
  (exists a b s1 s2,
      _check_pod_health env s = (Ok a, s1)
      /\ _check_service_endpoints env s1 = (Ok b, s2)
      /\ _run_health_checks env timeout s = (Ok (a && b), s2))
  /\ (forall rp re,
         reply env s [pods_cmd (self s)] = Returned rp ->
         reply env s [pods_cmd (self s); endpoints_cmd (self s)]
         = Returned re ->
         returncode rp = 0%Z -> Forall (eq Running) (phases rp) ->
         returncode re = 0%Z -> addresses re = [] ->
         fst (_run_health_checks env timeout s) = Ok false)
  /\ (forall rp re,
         reply env s [pods_cmd (self s)] = Returned rp ->
         reply env s [pods_cmd (self s); endpoints_cmd (self s)]
         = Returned re ->
         returncode rp = 0%Z -> Exists (fun p => p <> Running) (phases rp) ->
         returncode re = 0%Z -> addresses re <> [] ->
         fst (_run_health_checks env timeout s) = Ok false)
  /\ (forall rp re,
         reply env s [pods_cmd (self s)] = Returned rp ->
         reply env s [pods_cmd (self s); endpoints_cmd (self s)]
         = Returned re ->
         returncode rp = 0%Z -> Forall (eq Running) (phases rp) ->
         returncode re = 0%Z -> addresses re <> [] ->
         fst (_run_health_checks env timeout s) = Ok true).
Proof.
  destruct (run_health_checks_run env timeout s) as (t & E & _).
  split; [|rewrite E; cbn [fst]; repeat split; intros rp re -> -> Hp Pp He Pe;
           cbn [pods_running endpoints_present]; rewrite Hp, He;
           cbn [Z.eqb andb]].
  - destruct (check_pod_health_run env s) as (t1 & E1 & A1).
    destruct (check_service_endpoints_run env (after s t1)) as (t2 & E2 & A2).
    do 4 eexists. split; [exact E1|]. split; [exact E2|].
    unfold _run_health_checks, bind. rewrite E1, E2. unfold ret.
    cbn [forallb]. now rewrite andb_true_r.
  - rewrite Pe. now rewrite andb_false_r.
  - replace (forallb (fun status => str_eqb status Running) (phases rp))
      with false; [reflexivity|].
    symmetry. apply not_true_is_false. intros H.
    rewrite forallb_forall in H. apply Exists_exists in Pp.
    destruct Pp as (p & Hin & Hne). specialize (H p Hin).
    unfold str_eqb in H.
    destruct (str_eq_dec p Running); [contradiction|discriminate].
  - replace (forallb (fun status => str_eqb status Running) (phases rp))
      with true.
    + destruct (addresses re); [contradiction|reflexivity].
    + symmetry. apply forallb_forall. intros p Hin.
      rewrite Forall_forall in Pp. rewrite <- (Pp p Hin).
      unfold str_eqb. destruct (str_eq_dec Running Running); congruence.
Qed.

(** ** The Rollback Actuator *)

Section RollbackFacts.

Lemma tracked_revision_nonempty (o : outcome) (r : str) :
  tracked_revision o = Some r -> r <> [].
Proof.
  unfold tracked_revision. destruct o as [c|e]; [|discriminate].
  destruct (_ && _); [|discriminate].
  destruct (split (last (history_lines c) [])) as [|x xs] eqn:E;
    [discriminate|].
  cbn [hd_error]. intros [= <-].
  apply (@split_nonempty (last (history_lines c) [])). rewrite E. now left.
Qed.

Lemma captured_truthy (env : world) (s : state) (r : str) :
  captured env s = Some r -> truthy (rollback_revision (tracking env s)) = true.
Proof.
  intros H. cbn [tracking rollback_revision]. rewrite H.
  apply tracked_revision_nonempty in H. now destruct r.
Qed.

Lemma rollback_entries_app (t1 t2 : trace) :
  rollback_entries (t1 ++ t2) = (rollback_entries t1 + rollback_entries t2)%nat.
Proof. unfold rollback_entries. now rewrite filter_app, length_app. Qed.

Lemma rollback_entries_rollback_events (o : orchestrator) (r : outcome) :
  rollback_entries (rollback_events o r) = 1%nat.
Proof.
  unfold rollback_events.
  destruct (truthy (rollback_revision o)); [|reflexivity].
  now destruct r.
Qed.

Lemma invocations_rollback_events (o : orchestrator) (r : outcome) :
  invocations (rollback_events o r)
  = if truthy (rollback_revision o) then [undo_cmd o] else [].
Proof.
  unfold rollback_events. now destruct (truthy (rollback_revision o)).
Qed.

Lemma stores_rollback_events (o : orchestrator) (r : outcome) :
  stores (rollback_events o r) = [].
Proof.
  unfold rollback_events. now destruct (truthy (rollback_revision o)).
Qed.

Lemma gate_failed_verdict (env : world) (s : state) (m : str) :
  gate_failed env s m = negb (deploy_verdict env s m).
Proof.
  unfold gate_failed, applier_failed, waiter_failed, validator_failed,
    deploy_verdict.
  now destruct (applied env s m), (rolled_out env s m), (healthy env s m).
Qed.

(** Where the Rollback Actuator runs in a run whose Applier passed. *)
Lemma deploy_actions_failed (env : world) (s : state) (m : str) :
  applied env s m = true -> deploy_verdict env s m = false ->
  exists t0 script,
    deploy_actions env s m = t0 ++ rollback_after env s script
    /\ rollback_entries t0 = 0%nat
    /\ (forall c, In c (invocations t0) -> is_undo c = false)
    /\ stores t0 = [captured env s].
Proof.
  unfold deploy_verdict, deploy_actions, after_apply. intros -> H.
  cbn [andb] in H.
  destruct (rolled_out env s m); cbn [andb] in H.
  - rewrite H.
    exists [Run (history_cmd (self s)); SetRollbackRevision (captured env s);
            Run (apply_cmd (self s) m); Run (status_cmd (self s) 300);
            Run (pods_cmd (self s)); Run (endpoints_cmd (self s))],
      (upto_endpoints s m).
    repeat split. cbn [invocations].
    intros c [<-|[<-|[<-|[<-|[<-|[]]]]]]; reflexivity.
  - exists [Run (history_cmd (self s)); SetRollbackRevision (captured env s);
            Run (apply_cmd (self s) m); Run (status_cmd (self s) 300)],
      (upto_status s m).
    repeat split. cbn [invocations].
    intros c [<-|[<-|[<-|[]]]]; reflexivity.
Qed.

End RollbackFacts.

(** The run when a gate fails.  [deploy] returns [False], whatever
    the control plane answers to the undo request.  When the failing gate
    is the Rollout Waiter or the Health Validator, [_perform_rollback] is
    entered exactly once, as the last thing [deploy] does.  When it is the
    Manifest Applier, [deploy] returns without entering
    [_perform_rollback], having invoked the history query and the apply
    command only. *)
Theorem deploy_failure_rollback (env : world) (m : str) (s : state) :
  gate_failed env s m = true ->
  exists t,
    deploy env m s = (Ok false, State (tracking env s) (events s ++ t))
    /\ (waiter_failed env s m || validator_failed env s m = true ->
        rollback_entries t = 1%nat
        /\ exists t0 script,
             actions t = t0 ++ rollback_after env s script
             /\ rollback_entries t0 = 0%nat)
    /\ (applier_failed env s m = true ->
        rollback_entries t = 0%nat /\ invocations t = upto_apply s m).
Proof.
  intros Hfail. rewrite gate_failed_verdict in Hfail.
  apply negb_true_iff in Hfail.
  destruct (deploy_run env m s) as (t & E & A). rewrite Hfail in E.
  exists t. split; [exact E|]. split.
  - intros Hlate.
    assert (Happ : applied env s m = true).
    { unfold waiter_failed, validator_failed in Hlate.
      destruct (applied env s m); [reflexivity|discriminate]. }
    destruct (deploy_actions_failed env s m Happ Hfail)
      as (t0 & script & D & R0 & _ & _).
    split.
    + rewrite <- rollback_entries_actions, A, D, rollback_entries_app, R0.
      apply rollback_entries_rollback_events.
    + exists t0, script. now rewrite A.
  - unfold applier_failed. intros Happ. apply negb_true_iff in Happ.
    rewrite <- rollback_entries_actions, <- invocations_actions, A.
    unfold deploy_actions, after_apply. rewrite Happ. now split.
Qed.

(** Not every failing gate leads to a rollback.  The manifest is rejected
    while revision 2 is tracked: the Applier fails and [deploy] returns
    without entering [_perform_rollback]. *)
Lemma apply_failure_skips_rollback :
  ~ rollback_on_any_failure env_apply_rejected fresh manifest.
Proof.
  intros H. destruct H as [H _]; [reflexivity|].
  vm_compute in H. inversion H.
Qed.

(** The undo request.  With a rollback target, [_perform_rollback] announces
    the rollback, issues the undo request once and nothing else (no status
    query, no health check, no second attempt), and reports: it logs
    ["Rollback initiated"] exactly when issuing the request returned,
    whatever exit status the control plane gave, and ["Rollback failed"]
    exactly when issuing it raised. *)
Theorem perform_rollback_single_request (env : world) (s : state) :
  truthy (rollback_revision (self s)) = true ->
  _perform_rollback env s =
    (Ok tt,
     after s [Print (MsgRollingBack (format_opt (rollback_revision (self s))));
              Run (undo_cmd (self s));
              Print (match reply env s [undo_cmd (self s)] with
                     | Returned _ => MsgRollbackInitiated
                     | Raised e => MsgRollbackFailed e
                     end)])
  /\ invocations (emitted (_perform_rollback env) s) = [undo_cmd (self s)]
  /\ (In (Print MsgRollbackInitiated) (emitted (_perform_rollback env) s)
      <-> exists r, reply env s [undo_cmd (self s)] = Returned r)
  /\ (forall e,
        In (Print (MsgRollbackFailed e)) (emitted (_perform_rollback env) s)
        <-> reply env s [undo_cmd (self s)] = Raised e).
Proof.
  intros Htruthy. pose proof (perform_rollback_run env s) as E.
  unfold rollback_events in E. rewrite Htruthy in E.
  split; [exact E|].
  unfold emitted. rewrite E. unfold after. cbn [snd events].
  rewrite skipn_app, skipn_all, Nat.sub_diag. cbn [skipn app invocations].
  split; [reflexivity|].
  destruct (reply env s [undo_cmd (self s)]) as [r|e]; split.
  - split; [intros _; now exists r | intros _; simpl; tauto].
  - intros e. split; [|discriminate].
    simpl. intros [H|[H|[H|[]]]]; discriminate.
  - split; [|intros [r H]; discriminate].
    simpl. intros [H|[H|[H|[]]]]; discriminate.
  - intros e'. split.
    + simpl. intros [H|[H|[H|[]]]]; try discriminate. now inversion H.
    + intros [= ->]. simpl. tauto.
Qed.

(** Success is not logged by acceptance.  The control plane rejects the
    undo request with exit status 1, and ["Rollback initiated"] is logged
    all the same. *)
Lemma rejected_undo_logged_as_initiated :
  ~ reports_acceptance env_rejecting_undo web_at_2.
Proof.
  intros [H _]. assert (F : false = true); [|discriminate F].
  apply H. vm_compute. tauto.
Qed.

(** A whole run in which the control plane rejects the undo request: the
    run still logs ["Rollback initiated"]. *)
Example deploy_logs_initiated_on_rejected_undo :
  fst (deploy env_undo_rejected manifest fresh) = Ok false
  /\ In (Print MsgRollbackInitiated)
        (events (snd (deploy env_undo_rejected manifest fresh)))
  /\ ~ In (Print (MsgRollbackFailed
                    (Exception "OSError" (lit "kubectl: not found"))))
          (events (snd (deploy env_undo_rejected manifest fresh))).
Proof.
  split; [reflexivity|]. split.
  - vm_compute. tauto.
  - vm_compute. intuition discriminate.
Qed.

(** Runs without a revision.  When the tracker found no revision and a
    gate fails, [deploy]
    returns [False] and no undo request is invoked in the run; past the
    Applier, the run ends with the report ["No previous revision to
    rollback to"].  [_perform_rollback] itself, without a stored revision,
    logs that report and returns without invoking anything. *)
Theorem no_revision_no_undo (env : world) (m : str) (s : state) :
  captured env s = None ->
  gate_failed env s m = true ->
  exists t,
    deploy env m s = (Ok false, State (tracking env s) (events s ++ t))
    /\ (forall c, In c (invocations t) -> is_undo c = false)
    /\ (applied env s m = true ->
        exists t0, actions t = t0 ++ [Print MsgNoPreviousRevision]
                   /\ rollback_entries t0 = 0%nat)
    /\ (forall s', rollback_revision (self s') = None ->
                   _perform_rollback env s'
                   = (Ok tt, after s' [Print MsgNoPreviousRevision])).
Proof.
  intros Hnone Hfail. rewrite gate_failed_verdict in Hfail.
  apply negb_true_iff in Hfail.
  destruct (deploy_run env m s) as (t & E & A). rewrite Hfail in E.
  assert (RB : forall script,
             rollback_after env s script = [Print MsgNoPreviousRevision]).
  { intros script. unfold rollback_after, rollback_events.
    cbn [tracking rollback_revision]. now rewrite Hnone. }
  exists t. split; [exact E|]. repeat split.
  - rewrite <- invocations_actions, A.
    destruct (applied env s m) eqn:Happ.
    + destruct (deploy_actions_failed env s m Happ Hfail)
        as (t0 & script & -> & _ & U & _).
      rewrite RB, invocations_app, app_nil_r. exact U.
    + unfold deploy_actions, after_apply. rewrite Happ. cbn [invocations app].
      intros c [<-|[<-|[]]]; reflexivity.
  - intros Happ.
    destruct (deploy_actions_failed env s m Happ Hfail)
      as (t0 & script & D & R0 & _ & _).
    exists t0. now rewrite A, D, RB.
  - intros s' Hs'. rewrite perform_rollback_run. unfold rollback_events.
    now rewrite Hs'.
Qed.

(** ** Invocations of one run *)

Section RunFacts.

Variable env : world.

Lemma deploy_actions_split (s : state) (m : str) :
  deploy_actions env s m
  = [Run (history_cmd (self s))]
    ++ SetRollbackRevision (captured env s)
    :: Run (apply_cmd (self s) m) :: after_apply env s m.
Proof. reflexivity. Qed.

Lemma stores_after_apply (s : state) (m : str) :
  stores (after_apply env s m) = [].
Proof.
  unfold after_apply, rollback_after.
  destruct (applied env s m); [|reflexivity].
  destruct (rolled_out env s m); cbn [stores app].
  - destruct (healthy env s m); [reflexivity|]. apply stores_rollback_events.
  - apply stores_rollback_events.
Qed.

Lemma undo_after_apply (s : state) (m : str) (c : call) :
  In c (invocations (after_apply env s m)) -> is_undo c = true ->
  c = undo_cmd (tracking env s).
Proof.
  assert (RB : forall script c',
             In c' (invocations (rollback_after env s script)) ->
             c' = undo_cmd (tracking env s)).
  { intros script c'. unfold rollback_after.
    rewrite invocations_rollback_events.
    destruct (truthy _); [now intros [<-|[]] | intros []]. }
  unfold after_apply.
  destruct (applied env s m); [|intros []].
  destruct (rolled_out env s m); cbn [invocations app].
  - destruct (healthy env s m).
    + intros [<-|[<-|[<-|[]]]]; discriminate.
    + intros [<-|[<-|[<-|H]]]; try discriminate. intros _. now apply RB in H.
  - intros [<-|H]; [discriminate|]. intros _. now apply RB in H.
Qed.

Ltac differ :=
  let H := fresh in
  intros H; apply (f_equal verb) in H; cbv in H; discriminate H.

Ltac count :=
  repeat first [ rewrite count_occ_cons_eq by reflexivity
               | rewrite count_occ_cons_neq by differ ];
  cbn [count_occ]; try reflexivity.

Lemma times_run_deploy_actions (s : state) (m : str) :
  times_run (history_cmd (self s)) (deploy_actions env s m) = 1%nat
  /\ times_run (apply_cmd (self s) m) (deploy_actions env s m) = 1%nat
  /\ times_run (status_cmd (self s) 300) (deploy_actions env s m)
     = (if applied env s m then 1 else 0)%nat
  /\ times_run (pods_cmd (self s)) (deploy_actions env s m)
     = (if applied env s m && rolled_out env s m then 1 else 0)%nat
  /\ times_run (endpoints_cmd (self s)) (deploy_actions env s m)
     = (if applied env s m && rolled_out env s m then 1 else 0)%nat.
Proof.
  unfold times_run, deploy_actions, after_apply, rollback_after.
  destruct (applied env s m); cbn [andb app invocations].
  2:{ repeat split; count. }
  destruct (rolled_out env s m); cbn [andb app invocations];
    [destruct (healthy env s m)|]; cbn [app invocations];
    rewrite ?invocations_rollback_events;
    try destruct (truthy _); repeat split; count.
Qed.

Lemma times_run_undo (s : state) (m : str) :
  truthy (captured env s) = true ->
  applied env s m = true -> deploy_verdict env s m = false ->
  times_run (undo_cmd (tracking env s)) (deploy_actions env s m) = 1%nat.
Proof.
  intros Ht Ha Hv. unfold deploy_verdict in Hv. rewrite Ha in Hv.
  cbn [andb] in Hv.
  unfold times_run, deploy_actions, after_apply, rollback_after. rewrite Ha.
  destruct (rolled_out env s m); cbn [andb app invocations] in *.
  - rewrite Hv. cbn [app invocations].
    rewrite invocations_rollback_events. cbn [tracking rollback_revision].
    rewrite Ht. count.
  - rewrite invocations_rollback_events. cbn [tracking rollback_revision].
    rewrite Ht. count.
Qed.

(** Before the store, [_get_current_revision] reads only the name and the
    namespace of the object. *)
Lemma get_current_revision_stale (app ns : str) (v1 v2 : option str)
      (ev : trace) :
  exists v ev',
    _get_current_revision env (State (Orchestrator app ns v1) ev)
    = (Ok v, State (Orchestrator app ns v1) ev')
    /\ _get_current_revision env (State (Orchestrator app ns v2) ev)
       = (Ok v, State (Orchestrator app ns v2) ev').
Proof.
  unfold _get_current_revision, bind, try_except, get_self, returned_or, ret,
    print, emit, subprocess_run.
  cbn [self events].
  change (history_cmd (Orchestrator app ns v2))
    with (history_cmd (Orchestrator app ns v1)).
  destruct (env _) as [r|e]; cbn [self events].
  - destruct (returncode r =? 0)%Z; [|do 2 eexists; split; reflexivity].
    destruct (1 <? _)%nat; [|do 2 eexists; split; reflexivity].
    destruct (split _); unfold subscript0, raise, ret; cbn [self events];
      do 2 eexists; split; reflexivity.
  - do 2 eexists; split; reflexivity.
Qed.

End RunFacts.

(** ** The rollback target *)

(** C3.  When the tracker captured revision [r], the run stores [Some r]
    once: after the history query only, immediately before the apply
    command, and with no later store, so that the object holds [Some r] to
    the end.  Every undo request of the run is the one to revision [r], and
    when the Waiter or the Validator fails that request is invoked, once. *)
Theorem rollback_targets_captured_revision
  (env : world) (m : str) (s : state) (r : str) :
  captured env s = Some r ->
  exists t,
    deploy env m s =
      (Ok (deploy_verdict env s m), State (tracking env s) (events s ++ t))
    /\ rollback_revision (tracking env s) = Some r
    /\ stores t = [Some r]
    /\ (exists t1 t2,
           actions t = t1 ++ SetRollbackRevision (Some r)
                             :: Run (apply_cmd (self s) m) :: t2
           /\ invocations t1 = [history_cmd (self s)]
           /\ stores t2 = [])
    /\ (forall c, In c (invocations t) -> is_undo c = true ->
                  c = undo_cmd (tracking env s))
    /\ nth_error (argv (undo_cmd (tracking env s))) 4
       = Some (lit "--to-revision=" ++ r)
    /\ (waiter_failed env s m || validator_failed env s m = true ->
        times_run (undo_cmd (tracking env s)) t = 1%nat
        /\ In (Print (MsgRollingBack r)) t).
Proof.
  intros Hcap. destruct (deploy_run env m s) as (t & E & A).
  pose proof (captured_truthy env s Hcap) as Htruthy.
  exists t. split; [exact E|].
  split; [cbn [tracking rollback_revision]; exact Hcap|].
  split.
  { rewrite <- stores_actions, A, deploy_actions_split.
    cbn [stores app]. now rewrite stores_after_apply, Hcap. }
  split.
  { exists [Run (history_cmd (self s))], (after_apply env s m).
    rewrite A, deploy_actions_split, Hcap.
    split; [reflexivity|]. split; [reflexivity|].
    apply (stores_after_apply env s m). }
  split.
  { intros c. rewrite <- invocations_actions, A, deploy_actions_split.
    cbn [invocations app].
    intros [<-|[<-|H]]; try discriminate.
    intros Hu. exact (undo_after_apply env s m c H Hu). }
  split.
  { cbn [undo_cmd argv nth_error tracking rollback_revision].
    now rewrite Hcap. }
  intros Hlate.
  assert (Happ : applied env s m = true).
  { unfold waiter_failed, validator_failed in Hlate.
    destruct (applied env s m); [reflexivity|discriminate]. }
  assert (Hv : deploy_verdict env s m = false).
  { apply negb_true_iff. rewrite <- gate_failed_verdict. unfold gate_failed.
    rewrite <- orb_assoc, Hlate. apply orb_true_r. }
  split.
  - rewrite <- times_run_actions, A. apply times_run_undo; auto.
  - destruct (deploy_actions_failed env s m Happ Hv)
      as (t0 & script & D & _).
    assert (Hin : In (Print (MsgRollingBack r)) (actions t)).
    { rewrite A, D. apply in_or_app. right.
      unfold rollback_after, rollback_events. rewrite Htruthy.
      cbn [tracking rollback_revision]. rewrite Hcap. now left. }
    unfold actions in Hin. now apply filter_In in Hin.
Qed.

(** C9.  The outcome of [deploy] does not depend on the revision left in
    the object by an earlier call: the run starts with the history query
    and stores what it read before the apply command and before any undo
    request, and every undo request of the run names that revision. *)
Theorem deploy_recaptures_revision
  (env : world) (m name ns : str) (stale other : option str) (ev : trace) :
  deploy env m (State (Orchestrator name ns stale) ev)
  = deploy env m (State (Orchestrator name ns other) ev)
  /\ exists t t',
       deploy env m (State (Orchestrator name ns stale) ev)
       = (Ok (deploy_verdict env (State (Orchestrator name ns stale) ev) m),
          State (Orchestrator name ns
                   (captured env (State (Orchestrator name ns stale) ev)))
                (ev ++ t))
       /\ actions t
          = Run (history_cmd (Orchestrator name ns stale))
            :: SetRollbackRevision
                 (captured env (State (Orchestrator name ns stale) ev))
            :: Run (apply_cmd (Orchestrator name ns stale) m) :: t'
       /\ stores t' = []
       /\ (forall c, In c (invocations t) -> is_undo c = true ->
                     c = undo_cmd
                           (Orchestrator name ns
                              (captured env
                                 (State (Orchestrator name ns stale) ev)))).
Proof.
  split.
  - unfold deploy.
    unfold bind at 1 2. unfold get_self at 1. unfold print at 1.
    unfold emit at 1.
    unfold bind at 1.
    symmetry.
    unfold bind at 1 2. unfold get_self at 1. unfold print at 1.
    unfold emit at 1.
    unfold bind at 1.
    cbn [self events app_name].
    destruct (get_current_revision_stale env name ns other stale
                (ev ++ [Print (MsgStarting name)])) as (v & ev' & -> & ->).
    reflexivity.
  - destruct (deploy_run env m (State (Orchestrator name ns stale) ev))
      as (t & E & A).
    exists t, (after_apply env (State (Orchestrator name ns stale) ev) m).
    split; [exact E|]. split; [exact A|]. split; [apply stores_after_apply|].
    intros c. rewrite <- invocations_actions, A, deploy_actions_split.
    cbn [invocations app self].
    intros [<-|[<-|H]]; try discriminate.
    intros Hu. exact (undo_after_apply env _ m c H Hu).
Qed.

(** ** Single attempt per gate *)

(** C8.  In one run of [deploy], the history query and the apply command
    are invoked once; the rollout status check once when the Applier
    passed; the pod query and the endpoints query once each when the Waiter
    passed as well.  [_run_health_checks] invokes both queries, in this
    order, and answers with the conjunction of both results, also when the
    pod check fails. *)
Theorem each_gate_runs_once (env : world) (m : str) (s : state) :
  exists t,
    deploy env m s =
      (Ok (deploy_verdict env s m), State (tracking env s) (events s ++ t))
    /\ times_run (history_cmd (self s)) t = 1%nat
    /\ times_run (apply_cmd (self s) m) t = 1%nat
    /\ times_run (status_cmd (self s) 300) t
       = (if applied env s m then 1 else 0)%nat
    /\ times_run (pods_cmd (self s)) t
       = (if applied env s m && rolled_out env s m then 1 else 0)%nat
    /\ times_run (endpoints_cmd (self s)) t
       = (if applied env s m && rolled_out env s m then 1 else 0)%nat
    /\ (forall timeout s',
          exists t',
            _run_health_checks env timeout s'
            = (Ok (pods_running (reply env s' [pods_cmd (self s')])
                   && endpoints_present
                        (reply env s' [pods_cmd (self s');
                                       endpoints_cmd (self s')])),
               after s' t')
            /\ invocations t' = [pods_cmd (self s'); endpoints_cmd (self s')]).
Proof.
  destruct (deploy_run env m s) as (t & E & A).
  exists t. split; [exact E|].
  rewrite <- !(fun c => times_run_actions c t), A.
  destruct (times_run_deploy_actions env s m) as (H1 & H2 & H3 & H4 & H5).
  repeat (split; [assumption|]).
  intros timeout s'.
  destruct (run_health_checks_run env timeout s') as (t' & E' & A').
  exists t'. split; [exact E'|]. now rewrite <- invocations_actions, A'.
Qed.

(** ** Totality *)

(** Where every raised exception is an instance of [Exception], [deploy]
    returns a
    boolean and [main] an exit status of 0 or 1, and each method that
    invokes the control plane returns as well: an exception raised by an
    invocation never leaves the method that made it. *)
Theorem deploy_always_returns (env : world) (m : str) (s : state) :
  (exists b s', deploy env m s = (Ok b, s'))
  /\ (exists v s', _get_current_revision env s = (Ok v, s'))
  /\ (exists b s', _apply_manifest env m s = (Ok b, s'))
  /\ (forall timeout, exists b s', _wait_for_rollout env timeout s = (Ok b, s'))
  /\ (exists b s', _check_pod_health env s = (Ok b, s'))
  /\ (exists b s', _check_service_endpoints env s = (Ok b, s'))
  /\ (forall timeout,
        exists b s', _run_health_checks env timeout s = (Ok b, s'))
  /\ (exists s', _perform_rollback env s = (Ok tt, s'))
  /\ (forall app ns, exists code s',
         main env app m ns = (Ok code, s') /\ (code = 0 \/ code = 1)%Z).
Proof.
  split. { destruct (deploy_run env m s) as (t & E & _). eauto. }
  split. { destruct (get_current_revision_run env s) as (t & E & _). eauto. }
  split. { destruct (apply_manifest_run env m s) as (t & E & _). eauto. }
  split. { intros timeout.
           destruct (wait_for_rollout_run env timeout s) as (t & E & _).
           eauto. }
  split. { destruct (check_pod_health_run env s) as (t & E & _). eauto. }
  split. { destruct (check_service_endpoints_run env s) as (t & E & _). eauto. }
  split. { intros timeout.
           destruct (run_health_checks_run env timeout s) as (t & E & _).
           eauto. }
  split. { rewrite perform_rollback_run. eauto. }
  intros app ns. unfold main.
  destruct (deploy_run env m (State (init app ns) [])) as (t & -> & _).
  destruct (deploy_verdict _ _ _); eauto.
Qed.

(** ** The theorems at concrete control planes *)

(** [deploy_failure_rollback] at a rollout that does not converge and at a
    rejected manifest (no rollback). *)
Lemma deploy_failure_rollback_witness :
  (gate_failed env_rollout_failed fresh manifest = true
   /\ exists t,
        deploy env_rollout_failed manifest fresh
        = (Ok false, State (tracking env_rollout_failed fresh) t)
        /\ rollback_entries t = 1%nat)
  /\ (gate_failed env_apply_rejected fresh manifest = true
      /\ exists t,
           deploy env_apply_rejected manifest fresh
           = (Ok false, State (tracking env_apply_rejected fresh) t)
           /\ rollback_entries t = 0%nat).
Proof.
  split; (split; [reflexivity|]).
  - destruct (deploy_failure_rollback env_rollout_failed manifest fresh)
      as (t & E & Hlate & _); [reflexivity|].
    exists t. split; [exact E|]. apply Hlate. reflexivity.
  - destruct (deploy_failure_rollback env_apply_rejected manifest fresh)
      as (t & E & _ & Hearly); [reflexivity|].
    exists t. split; [exact E|]. apply Hearly. reflexivity.
Defined.

(** C3 at a rollout that does not converge while revision 2 is current. *)
Lemma rollback_targets_captured_revision_witness :
  captured env_rollout_failed fresh = Some (lit "2")
  /\ exists t,
       deploy env_rollout_failed manifest fresh
       = (Ok false, State (tracking env_rollout_failed fresh) t)
       /\ stores t = [Some (lit "2")]
       /\ times_run (undo_cmd (tracking env_rollout_failed fresh)) t = 1%nat
       /\ In (Print (MsgRollingBack (lit "2"))) t.
Proof.
  split; [reflexivity|].
  destruct (@rollback_targets_captured_revision
              env_rollout_failed manifest fresh (lit "2"))
    as (t & E & _ & St & _ & _ & _ & Hlate); [reflexivity|].
  exists t. split; [exact E|]. split; [exact St|].
  apply Hlate. reflexivity.
Defined.

(** C4 at the three scenarios. *)
Lemma run_health_checks_requires_both_witness :
  fst (_run_health_checks env_no_endpoints 60 fresh) = Ok false
  /\ fst (_run_health_checks env_pod_pending 60 fresh) = Ok false
  /\ fst (_run_health_checks env_serving 60 fresh) = Ok true.
Proof.
  split; [|split].
  - destruct (run_health_checks_requires_both env_no_endpoints 60 fresh)
      as (_ & H & _ & _).
    eapply H; try reflexivity. repeat constructor.
  - destruct (run_health_checks_requires_both env_pod_pending 60 fresh)
      as (_ & _ & H & _).
    eapply H; try reflexivity.
    + apply Exists_cons_tl, Exists_cons_hd. vm_compute. discriminate.
    + vm_compute. discriminate.
  - destruct (run_health_checks_requires_both env_serving 60 fresh)
      as (_ & _ & _ & H).
    eapply H; try reflexivity.
    + repeat constructor.
    + vm_compute. discriminate.
Defined.

(** [perform_rollback_single_request] at a rejected undo request. *)
Lemma perform_rollback_single_request_witness :
  truthy (rollback_revision (self web_at_2)) = true
  /\ _perform_rollback env_rejecting_undo web_at_2
     = (Ok tt,
        after web_at_2
          [Print (MsgRollingBack (lit "2")); Run (undo_cmd (self web_at_2));
           Print MsgRollbackInitiated]).
Proof.
  split; [reflexivity|].
  destruct (perform_rollback_single_request env_rejecting_undo web_at_2)
    as (E & _); [reflexivity|].
  exact E.
Defined.

(** [no_revision_no_undo] at a first deployment whose rollout fails. *)
Lemma no_revision_no_undo_witness :
  captured env_first_deploy_failed fresh = None
  /\ gate_failed env_first_deploy_failed fresh manifest = true
  /\ exists t,
       deploy env_first_deploy_failed manifest fresh
       = (Ok false, State (tracking env_first_deploy_failed fresh) t)
       /\ (forall c, In c (invocations t) -> is_undo c = false)
       /\ exists t0, actions t = t0 ++ [Print MsgNoPreviousRevision].
Proof.
  split; [reflexivity|]. split; [reflexivity|].
  destruct (no_revision_no_undo env_first_deploy_failed manifest fresh)
    as (t & E & U & Hlate & _); [reflexivity|reflexivity|].
  exists t. split; [exact E|]. split; [exact U|].
  destruct Hlate as (t0 & A & _); [reflexivity|]. now exists t0.
Defined.

(** C9 at a rollout that does not converge, on an object that still holds
    revision 7 from an earlier call: the undo request names revision 2. *)
Lemma deploy_recaptures_revision_witness :
  deploy env_rollout_failed manifest
    (State (Orchestrator (lit "web") (lit "default") (Some (lit "7"))) [])
  = deploy env_rollout_failed manifest fresh
  /\ In (undo_cmd (Orchestrator (lit "web") (lit "default") (Some (lit "2"))))
        (invocations (events (snd (deploy env_rollout_failed manifest fresh)))).
Proof.
  destruct (deploy_recaptures_revision env_rollout_failed manifest
              (lit "web") (lit "default") (Some (lit "7")) None [])
    as (E & _).
  split; [exact E|]. vm_compute. tauto.
Defined.

(** * Further properties of the code *)

(** ** Words and lines *)

Section WordFacts.

Lemma split_from_nil_iff (s cur : str) :
  split_from cur s = [] <-> cur = [] /\ blank s = true.
Proof.
  revert cur. induction s as [|c s IH]; intros cur; simpl.
  - destruct cur; simpl; [tauto|].
    split; [|intros [H _]; discriminate].
    intros H. destruct (rev cur); discriminate.
  - destruct (isspace c) eqn:Hc; simpl.
    + split.
      * intros H. apply app_eq_nil in H. destruct H as [Hf Hs].
        apply IH in Hs. destruct cur; [tauto|].
        simpl in Hf. destruct (rev cur); discriminate.
      * intros [-> Hs]. simpl. apply IH. tauto.
    + rewrite IH.
      split; [intros [H _]; discriminate|intros [_ H]; discriminate].
Qed.

(** [s.split()] is empty exactly for an all-whitespace [s]. *)
Lemma split_nil_iff (s : str) : split s = [] <-> blank s = true.
Proof. unfold split. rewrite split_from_nil_iff. tauto. Qed.

Lemma solid_rev (w : str) : solid (rev w) = solid w.
Proof.
  unfold solid. apply eq_true_iff_eq. rewrite !forallb_forall.
  split; intros H x Hx; apply H; [now apply in_rev in Hx | now apply in_rev].
Qed.

Lemma split_from_solid (s cur x : str) :
  solid cur = true -> In x (split_from cur s) -> solid x = true.
Proof.
  revert cur. induction s as [|c s IH]; intros cur Hcur; simpl.
  - destruct cur; simpl; [tauto|]. intros [<-|[]].
    change (solid (rev (c :: cur)) = true). now rewrite solid_rev.
  - destruct (isspace c) eqn:Hc.
    + intros H. apply in_app_or in H. destruct H as [H|H].
      * destruct cur as [|a cur]; simpl in H; [tauto|]. destruct H as [<-|[]].
        change (solid (rev (a :: cur)) = true). now rewrite solid_rev.
      * now apply (IH []).
    + apply IH. simpl. now rewrite Hc.
Qed.

(** Every word of [s.split()] is a word. *)
Lemma split_words (s x : str) : In x (split s) -> is_word x = true.
Proof.
  intros H. pose proof (@split_nonempty s x H) as Hne.
  apply (@split_from_solid s [] x eq_refl) in H.
  destruct x; [contradiction|exact H].
Qed.

Lemma split_from_solid_prefix (w cur rest : str) :
  solid w = true -> split_from cur (w ++ rest) = split_from (rev w ++ cur) rest.
Proof.
  revert cur. induction w as [|c w IH]; intros cur Hw; simpl; [reflexivity|].
  simpl in Hw. apply andb_true_iff in Hw. destruct Hw as [Hc Hw].
  apply negb_true_iff in Hc. rewrite Hc, IH by assumption.
  now rewrite <- app_assoc.
Qed.

(** Splitting what [" ".join] made of words gives the words back. *)
Lemma split_unwords (ws : list str) :
  forallb is_word ws = true -> split (unwords ws) = ws.
Proof.
  unfold split. induction ws as [|w ws IH]; intros H; [reflexivity|].
  simpl in H. apply andb_true_iff in H. destruct H as [Hw Hws].
  assert (Hs : solid w = true) by (destruct w; [discriminate|exact Hw]).
  assert (Hf : flush (rev w) = [w]).
  { destruct w as [|c w]; [discriminate|].
    unfold flush. destruct (rev (c :: w)) eqn:E.
    - now apply rev_cons_not_nil in E.
    - rewrite <- E. now rewrite rev_involutive. }
  cbn [unwords]. destruct ws as [|w' ws'].
  - pose proof (@split_from_solid_prefix w [] [] Hs) as P.
    rewrite !app_nil_r in P. rewrite P. exact Hf.
  - rewrite split_from_solid_prefix by assumption. rewrite app_nil_r.
    cbn [split_from]. change (isspace space) with true. cbv iota.
    rewrite Hf, IH by assumption. reflexivity.
Qed.

Lemma lstrip_blank (pad s : str) :
  blank pad = true -> lstrip (pad ++ s) = lstrip s.
Proof.
  induction pad as [|c pad IH]; simpl; [reflexivity|].
  intros H. apply andb_true_iff in H. destruct H as [-> H]. now apply IH.
Qed.

Lemma blank_rev (s : str) : blank (rev s) = blank s.
Proof.
  unfold blank. apply eq_true_iff_eq. rewrite !forallb_forall.
  split; intros H x Hx; apply H; [now apply in_rev in Hx | now apply in_rev].
Qed.

Lemma lstrip_app (a b : str) :
  lstrip (a ++ b) = if blank a then lstrip b else lstrip a ++ b.
Proof.
  induction a as [|c a IH]; simpl; [reflexivity|].
  destruct (isspace c); simpl; [exact IH|reflexivity].
Qed.

Lemma lstrip_nil_blank (s : str) : lstrip s = [] <-> blank s = true.
Proof.
  induction s as [|c s IH]; simpl; [tauto|].
  destruct (isspace c); simpl; [exact IH|].
  split; discriminate.
Qed.

Lemma rstrip_blank (s pad : str) :
  blank pad = true -> rstrip (s ++ pad) = rstrip s.
Proof.
  intros H. unfold rstrip. rewrite rev_app_distr.
  now rewrite lstrip_blank by (now rewrite blank_rev).
Qed.

(** [strip] does not see whitespace around its argument. *)
Lemma strip_padding (pad1 s pad2 : str) :
  blank pad1 = true -> blank pad2 = true ->
  strip (pad1 ++ s ++ pad2) = strip s.
Proof.
  intros H1 H2. unfold strip. rewrite lstrip_blank by assumption.
  rewrite lstrip_app. destruct (blank s) eqn:Hs.
  - apply lstrip_nil_blank in Hs. apply lstrip_nil_blank in H2.
    now rewrite Hs, H2.
  - now apply rstrip_blank.
Qed.

(** [s.split(sep)] has one piece more than [s] has separators. *)
Lemma length_split_on (sep : char) (s : str) :
  List.length (split_on sep s) = S (count_occ N.eq_dec s sep).
Proof.
  induction s as [|c s IH]; [reflexivity|]. simpl.
  destruct (N.eqb_spec c sep) as [->|Hne].
  - destruct (N.eq_dec sep sep); [|contradiction]. simpl. now rewrite IH.
  - destruct (N.eq_dec c sep); [contradiction|].
    destruct (split_on sep s) eqn:E; [discriminate IH|]. exact IH.
Qed.

(** [sep.join(s.split(sep))] is [s]. *)
Lemma join_on_split_on (sep : char) (s : str) :
  join_on sep (split_on sep s) = s.
Proof.
  induction s as [|c s IH]; [reflexivity|]. simpl.
  pose proof (split_on_not_nil sep s) as Hne.
  destruct (N.eqb_spec c sep) as [->|Hc].
  - cbn [join_on]. destruct (split_on sep s) eqn:E; [contradiction|].
    now rewrite IH.
  - destruct (split_on sep s) as [|l ls] eqn:E; [contradiction|].
    cbn [join_on] in *. destruct ls; simpl; now rewrite <- IH.
Qed.

End WordFacts.

(** ** Every event of a run *)

Section Exact.

Variable env : world.

Ltac settle :=
  unfold subscript0, returned_or, print;
  unfold bind, try_except, get_self, ret, raise, emit, after;
  cbn [self events]; rewrite <- ?app_assoc; cbn [app]; try reflexivity.

Lemma get_current_revision_exact (s : state) :
  _get_current_revision env s =
  (Ok (tracked_revision (reply env s [history_cmd (self s)])),
   after s (Run (history_cmd (self s))
            :: tracker_notes (reply env s [history_cmd (self s)]))).
Proof.
  unfold _get_current_revision, tracked_revision, tracker_notes, history_lines.
  unfold bind, try_except, get_self. rewrite subprocess_run_eq.
  destruct (reply env s [history_cmd (self s)]) as [r|e]; [|settle].
  destruct (returncode r =? 0)%Z; cbn [andb]; [|settle].
  destruct (1 <? List.length (split_on newline (strip (stdout r))))%nat;
    [|settle].
  destruct (split (last (split_on newline (strip (stdout r))) []));
    cbn [hd_error]; settle.
Qed.

Lemma apply_manifest_exact (m : str) (s : state) :
  _apply_manifest env m s =
  (Ok (exit_zero (reply env s [apply_cmd (self s) m])),
   after s (Run (apply_cmd (self s) m)
            :: apply_notes (reply env s [apply_cmd (self s) m]))).
Proof.
  unfold _apply_manifest, exit_zero, apply_notes.
  unfold bind, try_except, get_self. rewrite subprocess_run_eq.
  destruct (reply env s [apply_cmd (self s) m]) as [r|e]; [|settle].
  destruct (returncode r =? 0)%Z; settle.
Qed.

Lemma wait_for_rollout_exact (timeout : Z) (s : state) :
  _wait_for_rollout env timeout s =
  (Ok (exit_zero (reply env s [status_cmd (self s) timeout])),
   after s (Run (status_cmd (self s) timeout)
            :: wait_notes (reply env s [status_cmd (self s) timeout]))).
Proof.
  unfold _wait_for_rollout, exit_zero, wait_notes.
  unfold bind, try_except, get_self. rewrite subprocess_run_eq.
  destruct (reply env s [status_cmd (self s) timeout]) as [r|e]; settle.
Qed.

Lemma check_pod_health_exact (s : state) :
  _check_pod_health env s =
  (Ok (pods_running (reply env s [pods_cmd (self s)])),
   after s (Run (pods_cmd (self s))
            :: pods_notes (reply env s [pods_cmd (self s)]))).
Proof.
  unfold _check_pod_health, pods_running, pods_notes, phases, Running.
  unfold bind, try_except, get_self. rewrite subprocess_run_eq.
  destruct (reply env s [pods_cmd (self s)]) as [r|e]; [|settle].
  destruct (returncode r =? 0)%Z; cbn [andb]; [|settle].
  destruct (forallb _ (split (stdout r))); settle.
Qed.

Lemma check_service_endpoints_exact (s : state) :
  _check_service_endpoints env s =
  (Ok (endpoints_present (reply env s [endpoints_cmd (self s)])),
   after s (Run (endpoints_cmd (self s))
            :: endpoints_notes (reply env s [endpoints_cmd (self s)]))).
Proof.
  unfold _check_service_endpoints, endpoints_present, endpoints_notes,
    addresses.
  unfold bind, try_except, get_self. rewrite subprocess_run_eq.
  destruct (reply env s [endpoints_cmd (self s)]) as [r|e]; [|settle].
  destruct (returncode r =? 0)%Z; cbn [andb]; [|settle].
  destruct (split (stdout r)); settle.
Qed.

Lemma invocations_tracker_notes (r : outcome) :
  invocations (tracker_notes r) = [].
Proof.
  unfold tracker_notes. destruct r as [c|e]; [|reflexivity].
  destruct (_ && _); [|reflexivity]. now destruct (split _).
Qed.

Lemma invocations_apply_notes (r : outcome) : invocations (apply_notes r) = [].
Proof.
  unfold apply_notes. destruct r as [c|e]; [|reflexivity].
  now destruct (returncode c =? 0)%Z.
Qed.

Lemma invocations_wait_notes (r : outcome) : invocations (wait_notes r) = [].
Proof. now destruct r. Qed.

Lemma invocations_pods_notes (r : outcome) : invocations (pods_notes r) = [].
Proof.
  unfold pods_notes. destruct r as [c|e]; [|reflexivity].
  destruct (returncode c =? 0)%Z; [|reflexivity]. now destruct (forallb _ _).
Qed.

Lemma invocations_endpoints_notes (r : outcome) :
  invocations (endpoints_notes r) = [].
Proof.
  unfold endpoints_notes. destruct r as [c|e]; [|reflexivity].
  destruct (returncode c =? 0)%Z; [|reflexivity]. now destruct (addresses c).
Qed.

Lemma reply_from (o : orchestrator) (s : state) (t : trace) (cs : list call) :
  reply env (State o (events s ++ t)) cs = reply env s (invocations t ++ cs).
Proof.
  unfold reply. cbn [events]. now rewrite invocations_app, app_assoc.
Qed.

Lemma run_health_checks_exact (timeout : Z) (s : state) :
  _run_health_checks env timeout s =
  (Ok (pods_running (reply env s [pods_cmd (self s)])
       && endpoints_present
            (reply env s [pods_cmd (self s); endpoints_cmd (self s)])),
   after s (Run (pods_cmd (self s))
            :: pods_notes (reply env s [pods_cmd (self s)])
            ++ Run (endpoints_cmd (self s))
            :: endpoints_notes
                 (reply env s [pods_cmd (self s); endpoints_cmd (self s)]))).
Proof.
  unfold _run_health_checks, bind.
  rewrite check_pod_health_exact, check_service_endpoints_exact.
  unfold ret, after. cbn [self events forallb]. rewrite !reply_from.
  cbn [invocations]. rewrite invocations_pods_notes. cbn [app].
  now rewrite andb_true_r, <- app_assoc.
Qed.

Ltac step :=
  match goal with
  | |- context [bind get_self ?k ?st] =>
      change (bind get_self k st) with (k (self st) st)
  | |- context [bind (print ?x) ?k ?st] =>
      change (bind (print x) k st)
        with (k tt (State (self st) (events st ++ [Print x])))
  | |- context [bind (set_rollback_revision ?v) ?k ?st] =>
      change (bind (set_rollback_revision v) k st)
        with (k tt (State (Orchestrator (app_name (self st))
                                        (namespace (self st)) v)
                          (events st ++ [SetRollbackRevision v])))
  | |- context [bind (_get_current_revision env) ?k ?st] =>
      rewrite (@bind_ok _ _ _ k _ _ _ (get_current_revision_exact st))
  | |- context [bind (_apply_manifest env ?m) ?k ?st] =>
      rewrite (@bind_ok _ _ _ k _ _ _ (apply_manifest_exact m st))
  | |- context [bind (_wait_for_rollout env ?n) ?k ?st] =>
      rewrite (@bind_ok _ _ _ k _ _ _ (wait_for_rollout_exact n st))
  | |- context [bind (_run_health_checks env ?n) ?k ?st] =>
      rewrite (@bind_ok _ _ _ k _ _ _ (run_health_checks_exact n st))
  | |- context [bind (_perform_rollback env) ?k ?st] =>
      rewrite (@bind_ok _ _ _ k _ _ _ (perform_rollback_run env st))
  end;
  cbv beta; unfold after;
  cbn [self events app_name namespace rollback_revision];
  change (apply_cmd (tracking env ?s) ?m) with (apply_cmd (self s) m);
  change (status_cmd (tracking env ?s) ?n) with (status_cmd (self s) n);
  change (pods_cmd (tracking env ?s)) with (pods_cmd (self s));
  change (endpoints_cmd (tracking env ?s)) with (endpoints_cmd (self s));
  repeat progress
    (rewrite <- ?app_assoc; rewrite ?reply_from; rewrite ?invocations_app;
     rewrite ?invocations_tracker_notes, ?invocations_apply_notes,
       ?invocations_wait_notes, ?invocations_pods_notes,
       ?invocations_endpoints_notes;
     cbn [invocations app]).

(** [deploy] emits exactly [deploy_events]. *)
Lemma deploy_exact (m : str) (s : state) :
  deploy env m s =
  (Ok (deploy_verdict env s m),
   State (tracking env s) (events s ++ deploy_events env s m)).
Proof.
  unfold deploy. do 3 step. fold (captured env s).
  step. fold (tracking env s). do 3 step.
  fold (upto_apply s m). fold (applied env s m).
  unfold deploy_verdict, deploy_events.
  destruct (applied env s m) eqn:Happlied; cbn [negb andb].
  2:{ step. unfold ret. rewrite <- ?app_assoc. cbn [app]. reflexivity. }
  do 2 step.
  change [history_cmd (self s); apply_cmd (self s) m; status_cmd (self s) 300]
    with (upto_status s m).
  fold (rolled_out env s m).
  destruct (rolled_out env s m) eqn:Hrolled; cbn [negb andb].
  2:{ do 2 step. reflexivity. }
  do 2 step.
  change [history_cmd (self s); apply_cmd (self s) m; status_cmd (self s) 300;
          pods_cmd (self s)] with (upto_pods s m).
  change [history_cmd (self s); apply_cmd (self s) m; status_cmd (self s) 300;
          pods_cmd (self s); endpoints_cmd (self s)]
    with (upto_endpoints s m).
  fold (pods_ok env s m). fold (endpoints_ok env s m). fold (healthy env s m).
  destruct (healthy env s m) eqn:Hhealthy; cbn [negb].
  - do 2 step. reflexivity.
  - do 2 step. reflexivity.
Qed.

End Exact.

(** ** What a run emits *)

Section Emitted.

Variable env : world.

Lemma emitted_from (A : Type) (c : M A) (s : state) (r : result A)
      (o : orchestrator) (t : trace) :
  c s = (r, State o (events s ++ t)) -> emitted c s = t.
Proof.
  intros E. unfold emitted. rewrite E. cbn [snd events].
  now rewrite skipn_app, skipn_all, Nat.sub_diag.
Qed.

Lemma emitted_deploy (m : str) (s : state) :
  emitted (deploy env m) s = deploy_events env s m.
Proof. exact (@emitted_from _ _ _ _ _ _ (deploy_exact env m s)). Qed.

Lemma actions_deploy_events (m : str) (s : state) :
  actions (deploy_events env s m) = deploy_actions env s m.
Proof.
  destruct (deploy_run env m s) as (t & E & A).
  rewrite deploy_exact in E. injection E as E.
  apply app_inv_head in E. now rewrite E.
Qed.

Lemma invocations_deploy_events (m : str) (s : state) :
  invocations (deploy_events env s m)
  = firstn (reached env s m) (upto_endpoints s m) ++ undo_of_run env s m.
Proof.
  rewrite <- invocations_actions, actions_deploy_events.
  unfold deploy_actions, after_apply, reached, undo_of_run, deploy_verdict,
    rollback_after.
  destruct (applied env s m); cbn [andb negb app invocations firstn];
    rewrite ?andb_false_r; [|reflexivity].
  destruct (rolled_out env s m); cbn [andb negb app invocations firstn].
  - destruct (healthy env s m); cbn [andb negb app invocations];
      rewrite ?andb_false_r, ?andb_true_r; [reflexivity|].
    rewrite invocations_rollback_events. cbn [tracking rollback_revision].
    now destruct (truthy (captured env s)).
  - rewrite invocations_rollback_events, andb_true_r.
    cbn [tracking rollback_revision].
    now destruct (truthy (captured env s)).
Qed.

Lemma outcome_of_rollback_events (o : orchestrator) (r : outcome) :
  filter is_outcome_message (rollback_events o r) = [].
Proof.
  unfold rollback_events. destruct (truthy _); [|reflexivity]. now destruct r.
Qed.

Lemma outcome_of_notes (r : outcome) :
  filter is_outcome_message (tracker_notes r) = []
  /\ filter is_outcome_message (apply_notes r) = []
  /\ filter is_outcome_message (wait_notes r) = []
  /\ filter is_outcome_message (pods_notes r) = []
  /\ filter is_outcome_message (endpoints_notes r) = [].
Proof.
  unfold tracker_notes, apply_notes, wait_notes, pods_notes, endpoints_notes.
  destruct r as [c|e]; [|repeat split].
  destruct (returncode c =? 0)%Z; cbn [andb].
  - destruct (1 <? List.length (history_lines c))%nat,
      (split (last (history_lines c) [])),
      (forallb (fun status => str_eqb status Running) (phases c)),
      (addresses c); repeat split.
  - repeat split.
Qed.

Lemma outcome_of_deploy_events (m : str) (s : state) :
  filter is_outcome_message (deploy_events env s m)
  = [Print (outcome_message env s m)].
Proof.
  unfold deploy_events, outcome_message, rollback_after.
  repeat (rewrite filter_app || rewrite filter_cons; cbn [is_outcome_message]).
  destruct (outcome_of_notes (reply env s [history_cmd (self s)]))
    as (-> & _).
  destruct (outcome_of_notes (reply env s (upto_apply s m)))
    as (_ & -> & _).
  destruct (applied env s m); cbn [negb app filter is_outcome_message];
    [|reflexivity].
  repeat (rewrite filter_app; cbn [filter is_outcome_message]).
  destruct (outcome_of_notes (reply env s (upto_status s m)))
    as (_ & _ & -> & _).
  destruct (rolled_out env s m); cbn [negb app filter is_outcome_message].
  - repeat (rewrite filter_app; cbn [filter is_outcome_message]).
    destruct (outcome_of_notes (reply env s (upto_pods s m)))
      as (_ & _ & _ & -> & _).
    destruct (outcome_of_notes (reply env s (upto_endpoints s m)))
      as (_ & _ & _ & _ & ->).
    destruct (healthy env s m); cbn [negb app filter is_outcome_message];
      [reflexivity|].
    now rewrite outcome_of_rollback_events.
  - now rewrite outcome_of_rollback_events.
Qed.

Lemma verdict_true_iff (m : str) (s : state) :
  deploy_verdict env s m = true
  <-> applied env s m = true /\ rolled_out env s m = true
      /\ pods_ok env s m = true /\ endpoints_ok env s m = true.
Proof.
  unfold deploy_verdict, healthy. rewrite !andb_true_iff. tauto.
Qed.

End Emitted.

(** ** The run as a whole *)

(** X1.  [deploy] returns [True] exactly when the apply command, the rollout
    status check, the pod check and the endpoints check all pass, whatever
    the history query answered.  A successful run invokes the five forward
    commands in order, never enters [_perform_rollback], and leaves in the
    object the revision it captured. *)
Theorem deploy_true_iff_all_gates_pass (env : world) (m : str) (s : state) :
  (fst (deploy env m s) = Ok true
   <-> applied env s m = true /\ rolled_out env s m = true
       /\ pods_ok env s m = true /\ endpoints_ok env s m = true)
  /\ (fst (deploy env m s) = Ok true ->
      invocations (emitted (deploy env m) s) = upto_endpoints s m
      /\ rollback_entries (emitted (deploy env m) s) = 0%nat
      /\ rollback_revision (self (snd (deploy env m s))) = captured env s).
Proof.
  rewrite emitted_deploy, deploy_exact. cbn [fst snd self].
  split.
  - rewrite <- verdict_true_iff. split; [now intros [= ->] | now intros ->].
  - intros [= Hv].
    rewrite <- rollback_entries_actions, invocations_deploy_events,
      actions_deploy_events.
    apply verdict_true_iff in Hv as Hg. destruct Hg as (Ha & Hr & Hp & He).
    unfold reached, undo_of_run, deploy_actions, after_apply, healthy.
    rewrite Hv, Ha, Hr, Hp, He, andb_false_r. repeat split.
Qed.

(** X1 at a control plane on which every gate passes. *)
Lemma deploy_true_iff_all_gates_pass_witness :
  fst (deploy env_all_passing manifest fresh) = Ok true
  /\ invocations (emitted (deploy env_all_passing manifest) fresh)
     = upto_endpoints fresh manifest
  /\ rollback_revision (self (snd (deploy env_all_passing manifest fresh)))
     = Some (lit "2").
Proof.
  destruct (deploy_true_iff_all_gates_pass env_all_passing manifest fresh)
    as (_ & H).
  split; [reflexivity|].
  destruct H as (Hi & _ & Hr); [reflexivity|].
  split; [exact Hi|]. rewrite Hr. reflexivity.
Defined.

(** X2.  [main] builds the orchestrator with no stored revision, runs
    [deploy] once from an empty trace, and exits with status 0 exactly when
    every gate passes and with status 1 exactly when some gate fails. *)
Theorem main_exit_status (env : world) (name m ns : str) :
  (fst (main env name m ns) = Ok 0%Z
   <-> applied env (State (init name ns) []) m = true
       /\ rolled_out env (State (init name ns) []) m = true
       /\ pods_ok env (State (init name ns) []) m = true
       /\ endpoints_ok env (State (init name ns) []) m = true)
  /\ (fst (main env name m ns) = Ok 1%Z
      <-> gate_failed env (State (init name ns) []) m = true)
  /\ snd (main env name m ns) = snd (deploy env m (State (init name ns) []))
  /\ events (snd (main env name m ns))
     = deploy_events env (State (init name ns) []) m.
Proof.
  unfold main. rewrite deploy_exact, gate_failed_verdict.
  rewrite <- verdict_true_iff.
  destruct (deploy_verdict env (State (init name ns) []) m);
    cbn [fst snd events negb app]; repeat split; try discriminate;
    intros; reflexivity.
Qed.

(** X3.  The invocations of a run are a prefix of history, apply, status,
    pods, endpoints (the first two when the Applier fails, the first three
    when the Waiter fails, all five otherwise), followed by one undo
    request exactly when a revision was captured and the Waiter or the
    Validator failed.  No other undo request is made, and a run invokes at
    most six commands. *)
Theorem run_protocol (env : world) (m : str) (s : state) :
  invocations (emitted (deploy env m) s)
  = firstn (reached env s m) (upto_endpoints s m) ++ undo_of_run env s m
  /\ filter is_undo (invocations (emitted (deploy env m) s))
     = undo_of_run env s m
  /\ (2 <= List.length (invocations (emitted (deploy env m) s)) <= 6)%nat.
Proof.
  rewrite emitted_deploy, invocations_deploy_events.
  split; [reflexivity|].
  unfold reached, undo_of_run.
  destruct (applied env s m), (rolled_out env s m),
    (truthy (captured env s) && _ && negb _);
    cbn [firstn upto_endpoints upto_pods upto_status upto_apply app
         filter List.length];
    (split; [reflexivity|lia]).
Qed.

(** X4.  Every run starts by announcing the deployment and announces its end
    with exactly one of four messages: the apply failure, the rollout
    failure, the health failure (each naming the first gate that failed)
    or the success; the success message is printed exactly when [deploy]
    returns [True]. *)
Theorem deploy_announces_outcome (env : world) (m : str) (s : state) :
  hd_error (emitted (deploy env m) s)
  = Some (Print (MsgStarting (app_name (self s))))
  /\ filter is_outcome_message (emitted (deploy env m) s)
     = [Print (outcome_message env s m)]
  /\ (In (Print (MsgDeploymentSuccessful (app_name (self s))))
         (emitted (deploy env m) s)
      <-> fst (deploy env m s) = Ok true).
Proof.
  rewrite emitted_deploy. split; [reflexivity|].
  split; [apply outcome_of_deploy_events|].
  rewrite deploy_exact. cbn [fst].
  assert (Hin : forall x,
             In (Print x) (deploy_events env s m)
             /\ is_outcome_message (Print x) = true
             <-> x = outcome_message env s m).
  { intros x. rewrite <- filter_In, outcome_of_deploy_events. simpl.
    split; [intros [[= ->]|[]]; reflexivity | intros ->; now left]. }
  split.
  - intros H. destruct (Hin (MsgDeploymentSuccessful (app_name (self s))))
      as [Hx _].
    specialize (Hx (conj H eq_refl)).
    unfold outcome_message, deploy_verdict in *.
    destruct (applied env s m), (rolled_out env s m), (healthy env s m);
      cbn [negb andb] in *; try discriminate; reflexivity.
  - intros [= Hv]. apply Hin. unfold outcome_message, deploy_verdict in *.
    destruct (applied env s m), (rolled_out env s m), (healthy env s m);
      cbn [negb andb] in *; try discriminate; reflexivity.
Qed.

(** ** The sub-checks on what the control plane prints *)

(** X5.  [_check_service_endpoints] returns [True] exactly when its query
    exits with status 0 and prints at least one non-whitespace character.
    On exit status 0 it reports the number of addresses printed, or that
    there is none; on another exit status it prints nothing. *)
Theorem check_service_endpoints_true_iff (env : world) (s : state) :
  (fst (_check_service_endpoints env s) = Ok true
   <-> exists r, reply env s [endpoints_cmd (self s)] = Returned r
                 /\ returncode r = 0%Z /\ blank (stdout r) = false)
  /\ (forall r,
        reply env s [endpoints_cmd (self s)] = Returned r ->
        emitted (_check_service_endpoints env) s
        = Run (endpoints_cmd (self s))
          :: (if (returncode r =? 0)%Z then
                [Print (if blank (stdout r) then MsgServiceNoEndpoints
                        else MsgServiceHasEndpoints
                               (List.length (split (stdout r))))]
              else [])).
Proof.
  pose proof (check_service_endpoints_exact env s) as E.
  rewrite (@emitted_from _ _ _ _ _ _ E), E. cbn [fst].
  assert (Hb : forall r : completed,
             match addresses r with [] => false | _ :: _ => true end
             = negb (blank (stdout r))).
  { intros r. unfold addresses.
    destruct (split (stdout r)) eqn:Es.
    - apply split_nil_iff in Es. now rewrite Es.
    - destruct (blank (stdout r)) eqn:Hbl; [|reflexivity].
      apply split_nil_iff in Hbl. congruence. }
  split.
  - unfold endpoints_present.
    destruct (reply env s [endpoints_cmd (self s)]) as [r|e].
    + rewrite Hb. split.
      * intros [= H]. apply andb_true_iff in H. destruct H as [Hz Hn].
        exists r. repeat split; [now apply Z.eqb_eq|].
        now apply negb_true_iff.
      * intros (r' & [= <-] & Hz & Hn). now rewrite Hz, Hn.
    + split; [discriminate|]. intros (r' & H & _). discriminate.
  - intros r ->. unfold endpoints_notes.
    destruct (returncode r =? 0)%Z; [|reflexivity].
    specialize (Hb r). unfold addresses in *.
    destruct (split (stdout r)); destruct (blank (stdout r));
      try discriminate; reflexivity.
Qed.

(** X5 at a service with one registered address. *)
Lemma check_service_endpoints_true_iff_witness :
  fst (_check_service_endpoints (scripted [completes "10.0.0.7"]) fresh)
  = Ok true
  /\ emitted (_check_service_endpoints (scripted [completes "10.0.0.7"]))
             fresh
     = [Run (endpoints_cmd web); Print (MsgServiceHasEndpoints 1)].
Proof.
  destruct (check_service_endpoints_true_iff
              (scripted [completes "10.0.0.7"]) fresh) as (Hiff & Hlog).
  split.
  - apply Hiff. exists (Completed 0 (lit "10.0.0.7") []). repeat split.
  - exact (Hlog (Completed 0 (lit "10.0.0.7") []) eq_refl).
Defined.

(** X6.  When the pod query exits with status 0 and prints the phases [ws]
    separated by single blanks, [_check_pod_health] reads exactly [ws]: it
    returns whether every phase is ["Running"], and reports either their
    number or the phases as listed. *)
Theorem check_pod_health_reads_phases
  (env : world) (s : state) (ws : list str) (err : str) :
  forallb is_word ws = true ->
  reply env s [pods_cmd (self s)] = Returned (Completed 0 (unwords ws) err) ->
  _check_pod_health env s
  = (Ok (forallb (fun p => str_eqb p Running) ws),
     after s [Run (pods_cmd (self s));
              Print (if forallb (fun p => str_eqb p Running) ws
                     then MsgAllPodsRunning (List.length ws)
                     else MsgSomePodsNotRunning ws)]).
Proof.
  intros Hw Hr. rewrite check_pod_health_exact, Hr.
  unfold pods_running, pods_notes, phases. cbn [returncode stdout Z.eqb andb].
  rewrite (split_unwords ws Hw).
  now destruct (forallb (fun p => str_eqb p Running) ws).
Qed.

(** X6 at one running and one pending pod. *)
Lemma check_pod_health_reads_phases_witness :
  _check_pod_health env_pod_pending fresh
  = (Ok false,
     after fresh [Run (pods_cmd web);
                  Print (MsgSomePodsNotRunning [Running; lit "Pending"])]).
Proof.
  exact (@check_pod_health_reads_phases env_pod_pending fresh
           [Running; lit "Pending"] [] eq_refl eq_refl).
Defined.

(** ** The revision read from the history *)

(** Where a returned revision comes from. *)
Lemma current_revision_origin (env : world) (s : state) (r : str) :
  fst (_get_current_revision env s) = Ok (Some r) ->
  exists c, reply env s [history_cmd (self s)] = Returned c
            /\ returncode c = 0%Z
            /\ (1 < List.length (history_lines c))%nat
            /\ hd_error (split (last (history_lines c) [])) = Some r.
Proof.
  rewrite get_current_revision_exact. cbn [fst]. unfold tracked_revision.
  destruct (reply env s [history_cmd (self s)]) as [c|e]; [|discriminate].
  destruct (returncode c =? 0)%Z eqn:Hz; cbn [andb]; [|discriminate].
  destruct (1 <? List.length (history_lines c))%nat eqn:Hl; [|discriminate].
  intros [= H]. exists c.
  repeat split; [now apply Z.eqb_eq|now apply Nat.ltb_lt|exact H].
Qed.

(** X7.  A revision returned by [_get_current_revision] is a non-empty
    string without whitespace: the first field of the last line of a reply
    with exit status 0 whose stripped output holds a line break. *)
Theorem captured_revision_is_a_word (env : world) (s : state) (r : str) :
  fst (_get_current_revision env s) = Ok (Some r) ->
  is_word r = true
  /\ exists c, reply env s [history_cmd (self s)] = Returned c
               /\ returncode c = 0%Z
               /\ In newline (strip (stdout c))
               /\ hd_error (split (last (history_lines c) [])) = Some r.
Proof.
  intros H.
  destruct (current_revision_origin env s H) as (c & Hc & Hz & Hl & Hr).
  split.
  - apply (@split_words (last (history_lines c) [])).
    destruct (split (last (history_lines c) [])); [discriminate|].
    injection Hr as ->. now left.
  - exists c. repeat split; try assumption.
    unfold history_lines in Hl. rewrite length_split_on in Hl.
    apply (count_occ_In N.eq_dec). lia.
Qed.

(** X7 at a history whose last record is revision 2. *)
Lemma captured_revision_is_a_word_witness :
  fst (_get_current_revision env_rollout_failed fresh) = Ok (Some (lit "2"))
  /\ is_word (lit "2") = true.
Proof.
  split; [reflexivity|].
  now destruct (@captured_revision_is_a_word env_rollout_failed fresh
                  (lit "2") eq_refl).
Defined.

(** X8.  [_get_current_revision] returns a revision exactly when its query
    exits with status 0 and the stripped output holds a line break; in
    every other case, a raised call included, it returns [None]. *)
Theorem get_current_revision_some_iff (env : world) (s : state) :
  (exists r, fst (_get_current_revision env s) = Ok (Some r))
  <-> exists c, reply env s [history_cmd (self s)] = Returned c
                /\ returncode c = 0%Z
                /\ In newline (strip (stdout c)).
Proof.
  split.
  - intros [r H].
    destruct (current_revision_origin env s H) as (c & Hc & Hz & Hl & _).
    exists c. repeat split; try assumption.
    unfold history_lines in Hl. rewrite length_split_on in Hl.
    apply (count_occ_In N.eq_dec). lia.
  - intros (c & Hc & Hz & Hn).
    rewrite get_current_revision_exact, Hc. cbn [fst].
    unfold tracked_revision. rewrite Hz. cbn [Z.eqb andb].
    assert (Hl : (1 < List.length (history_lines c))%nat).
    { unfold history_lines. rewrite length_split_on.
      apply (count_occ_In N.eq_dec) in Hn. lia. }
    apply Nat.ltb_lt in Hl as Hb. rewrite Hb.
    pose proof (last_line_has_field (stdout c) Hl) as Hf.
    fold (history_lines c) in Hf.
    destruct (split (last (history_lines c) [])) as [|r rs];
      [contradiction|]. now exists r.
Qed.

(** X9.  Whitespace around the output of the history query does not change
    what [_get_current_revision] returns. *)
Theorem get_current_revision_ignores_padding
  (env env' : world) (s : state) (rc : Z) (out err err' pad pad' : str) :
  blank pad = true -> blank pad' = true ->
  reply env s [history_cmd (self s)] = Returned (Completed rc out err) ->
  reply env' s [history_cmd (self s)]
  = Returned (Completed rc (pad ++ out ++ pad') err') ->
  fst (_get_current_revision env s) = fst (_get_current_revision env' s).
Proof.
  intros Hp Hp' Hr Hr'. rewrite !get_current_revision_exact, Hr, Hr'.
  cbn [fst]. unfold tracked_revision, history_lines. cbn [returncode stdout].
  now rewrite strip_padding.
Qed.

(** X9 at a history printed with a leading line break and trailing blanks. *)
Lemma get_current_revision_ignores_padding_witness :
  fst (_get_current_revision (scripted [completes sample_history]) fresh)
  = fst (_get_current_revision
           (scripted [Returned (Completed 0
                                  (lit "
" ++ lit sample_history ++ lit "   ") [])])
           fresh).
Proof.
  apply (@get_current_revision_ignores_padding
           (scripted [completes sample_history])
           (scripted [Returned (Completed 0
                                  (lit "
" ++ lit sample_history ++ lit "   ") [])])
           fresh 0%Z (lit sample_history) [] [] (lit "
") (lit "   ")); reflexivity.
Defined.

(** ** Failing invocations *)

(** Where every raised exception is an instance of [Exception], an
    invocation that raises never escapes the method that made it:
    the method reports the exception in its own message and answers with
    its failure value ([None] for the tracker, [False] for the gates);
    [_perform_rollback] reports it as a failed rollback. *)
Theorem raised_invocation_is_reported (env : world) (s : state) (e : exn) :
  (reply env s [history_cmd (self s)] = Raised e ->
   _get_current_revision env s
   = (Ok None, after s [Run (history_cmd (self s));
                        Print (MsgCouldNotGetRevision e)]))
  /\ (forall m,
        reply env s [apply_cmd (self s) m] = Raised e ->
        _apply_manifest env m s
        = (Ok false, after s [Run (apply_cmd (self s) m);
                              Print (MsgExceptionApplying e)]))
  /\ (forall timeout,
        reply env s [status_cmd (self s) timeout] = Raised e ->
        _wait_for_rollout env timeout s
        = (Ok false, after s [Run (status_cmd (self s) timeout);
                              Print (MsgExceptionWaiting e)]))
  /\ (reply env s [pods_cmd (self s)] = Raised e ->
      _check_pod_health env s
      = (Ok false, after s [Run (pods_cmd (self s));
                            Print (MsgErrorPodHealth e)]))
  /\ (reply env s [endpoints_cmd (self s)] = Raised e ->
      _check_service_endpoints env s
      = (Ok false, after s [Run (endpoints_cmd (self s));
                            Print (MsgErrorEndpoints e)]))
  /\ (truthy (rollback_revision (self s)) = true ->
      reply env s [undo_cmd (self s)] = Raised e ->
      _perform_rollback env s
      = (Ok tt,
         after s [Print (MsgRollingBack
                           (format_opt (rollback_revision (self s))));
                  Run (undo_cmd (self s));
                  Print (MsgRollbackFailed e)])).
Proof.
  split; [intros H; now rewrite get_current_revision_exact, H|].
  split; [intros m H; now rewrite apply_manifest_exact, H|].
  split; [intros n H; now rewrite wait_for_rollout_exact, H|].
  split; [intros H; now rewrite check_pod_health_exact, H|].
  split; [intros H; now rewrite check_service_endpoints_exact, H|].
  intros Ht H. rewrite perform_rollback_run. unfold rollback_events.
  now rewrite Ht, H.
Qed.

(** [raised_invocation_is_reported] at an unreachable control plane. *)
Lemma raised_invocation_is_reported_witness :
  _check_pod_health env_unreachable fresh
  = (Ok false,
     after fresh [Run (pods_cmd web);
                  Print (MsgErrorPodHealth
                           (Exception "OSError" (lit "kubectl: not found")))])
  /\ _perform_rollback env_unreachable web_at_2
     = (Ok tt,
        after web_at_2
          [Print (MsgRollingBack (lit "2")); Run (undo_cmd (self web_at_2));
           Print (MsgRollbackFailed
                    (Exception "OSError" (lit "kubectl: not found")))]).
Proof.
  split.
  - destruct (raised_invocation_is_reported env_unreachable fresh
                (Exception "OSError" (lit "kubectl: not found")))
      as (_ & _ & _ & H & _).
    apply H. reflexivity.
  - destruct (raised_invocation_is_reported env_unreachable web_at_2
                (Exception "OSError" (lit "kubectl: not found")))
      as (_ & _ & _ & _ & _ & H).
    apply H; reflexivity.
Defined.

(** X11.  When every invocation raises (no [kubectl], no connection),
    [deploy] returns [False] after the history query and the apply command
    only: it reports both exceptions, stores no revision, announces a first
    deployment, and neither waits, checks health nor rolls back. *)
Theorem deploy_on_unreachable_control_plane
  (env : world) (err : list call -> exn) (m : str) (s : state) :
  (forall cs, env cs = Raised (err cs)) ->
  deploy env m s
  = (Ok false,
     State (Orchestrator (app_name (self s)) (namespace (self s)) None)
       (events s
        ++ [Print (MsgStarting (app_name (self s)));
            Run (history_cmd (self s));
            Print (MsgCouldNotGetRevision
                     (err (invocations (events s)
                           ++ [history_cmd (self s)])));
            SetRollbackRevision None;
            Print (MsgCurrentRevision (lit "None (first deployment)"));
            Run (apply_cmd (self s) m);
            Print (MsgExceptionApplying
                     (err (invocations (events s) ++ upto_apply s m)));
            Print MsgFailedToApply])).
Proof.
  intros Henv. rewrite deploy_exact.
  unfold deploy_verdict, deploy_events, tracking, captured, applied, reply.
  rewrite !Henv. reflexivity.
Qed.

(** X11 at a control plane that cannot be reached. *)
Lemma deploy_on_unreachable_control_plane_witness :
  fst (deploy env_unreachable manifest fresh) = Ok false
  /\ invocations (events (snd (deploy env_unreachable manifest fresh)))
     = [history_cmd web; apply_cmd web manifest].
Proof.
  rewrite (@deploy_on_unreachable_control_plane env_unreachable
             (fun _ => Exception "OSError" (lit "kubectl: not found"))
             manifest fresh).
  - split; reflexivity.
  - intros cs. unfold env_unreachable, scripted.
    now destruct (List.length cs - 1)%nat.
Defined.

(** X12.  Of a command that exits with a nonzero status, only the apply
    command has its error text shown: [_apply_manifest] prints the captured
    [stderr], while the tracker, the Waiter and the two health sub-checks
    answer with their failure value and print nothing. *)
Theorem nonzero_exit_diagnostics (env : world) (s : state) (r : completed) :
  returncode r <> 0%Z ->
  (forall m,
      reply env s [apply_cmd (self s) m] = Returned r ->
      _apply_manifest env m s
      = (Ok false, after s [Run (apply_cmd (self s) m);
                            Print (MsgErrorApplying (stderr r))]))
  /\ (reply env s [history_cmd (self s)] = Returned r ->
      _get_current_revision env s
      = (Ok None, after s [Run (history_cmd (self s))]))
  /\ (forall timeout,
        reply env s [status_cmd (self s) timeout] = Returned r ->
        _wait_for_rollout env timeout s
        = (Ok false, after s [Run (status_cmd (self s) timeout)]))
  /\ (reply env s [pods_cmd (self s)] = Returned r ->
      _check_pod_health env s = (Ok false, after s [Run (pods_cmd (self s))]))
  /\ (reply env s [endpoints_cmd (self s)] = Returned r ->
      _check_service_endpoints env s
      = (Ok false, after s [Run (endpoints_cmd (self s))])).
Proof.
  intros Hz. apply Z.eqb_neq in Hz.
  split; [intros m H; rewrite apply_manifest_exact, H;
          unfold exit_zero, apply_notes; now rewrite Hz|].
  split; [intros H; rewrite get_current_revision_exact, H;
          unfold tracked_revision, tracker_notes; now rewrite Hz|].
  split; [intros n H; rewrite wait_for_rollout_exact, H;
          unfold exit_zero, wait_notes; now rewrite Hz|].
  split; [intros H; rewrite check_pod_health_exact, H;
          unfold pods_running, pods_notes; now rewrite Hz|].
  intros H. rewrite check_service_endpoints_exact, H.
  unfold endpoints_present, endpoints_notes. now rewrite Hz.
Qed.

(** X12 at a rejected manifest and at a rollout that timed out. *)
Lemma nonzero_exit_diagnostics_witness :
  _apply_manifest (scripted [rejects "error: validation failed"])
    manifest fresh
  = (Ok false,
     after fresh [Run (apply_cmd web manifest);
                  Print (MsgErrorApplying (lit "error: validation failed"))])
  /\ _wait_for_rollout (scripted [rejects "error: timed out"]) 300 fresh
     = (Ok false, after fresh [Run (status_cmd web 300)]).
Proof.
  split.
  - destruct (@nonzero_exit_diagnostics
                (scripted [rejects "error: validation failed"]) fresh
                (Completed 1 [] (lit "error: validation failed")))
      as (H & _); [discriminate|].
    apply H. reflexivity.
  - destruct (@nonzero_exit_diagnostics
                (scripted [rejects "error: timed out"]) fresh
                (Completed 1 [] (lit "error: timed out")))
      as (_ & _ & H & _); [discriminate|].
    apply H. reflexivity.
Defined.

(** ** The string operations the methods rely on *)

Section StripFacts.

Lemma lstrip_decomposition (s : str) :
  exists pad, blank pad = true /\ s = pad ++ lstrip s.
Proof.
  induction s as [|c s (pad & Hp & Hs)]; [now exists []|]. simpl.
  destruct (isspace c) eqn:Hc; [|now exists []].
  exists (c :: pad). simpl. rewrite Hc, Hp. split; [reflexivity|].
  now f_equal.
Qed.

Lemma rstrip_decomposition (s : str) :
  exists pad, blank pad = true /\ s = rstrip s ++ pad.
Proof.
  destruct (lstrip_decomposition (rev s)) as (pad & Hp & Hs).
  exists (rev pad). rewrite blank_rev. split; [exact Hp|].
  unfold rstrip. rewrite <- rev_app_distr, <- Hs. now rewrite rev_involutive.
Qed.

Lemma strip_head (s t : str) (c : char) :
  strip s = c :: t -> isspace c = false.
Proof.
  intros H. unfold strip in H.
  destruct (rstrip_decomposition (lstrip s)) as (pad & _ & Hs).
  rewrite H in Hs. simpl in Hs. now apply lstrip_head in Hs.
Qed.

End StripFacts.

(** X13.  [s.split()] yields words only (non-empty, free of whitespace), is
    empty exactly when [s] is all whitespace, and gives back the words of
    any list of words joined by single blanks. *)
Theorem split_yields_the_words :
  (forall s x, In x (split s) -> is_word x = true)
  /\ (forall s, split s = [] <-> blank s = true)
  /\ (forall ws, forallb is_word ws = true -> split (unwords ws) = ws).
Proof.
  split; [exact split_words|]. split; [exact split_nil_iff|].
  exact split_unwords.
Qed.

(** X13 at the phases of two pods. *)
Lemma split_yields_the_words_witness :
  split (lit "Running Pending") = [Running; lit "Pending"]
  /\ is_word Running = true.
Proof.
  destruct split_yields_the_words as (Hw & _ & Hu).
  split.
  - exact (Hu [Running; lit "Pending"] eq_refl).
  - apply (Hw (lit "Running Pending")). vm_compute. tauto.
Defined.

(** X14.  [s.split(sep)] loses nothing: joining its pieces with [sep] gives
    [s] back, and there is one piece more than [s] has separators, so that
    there is more than one piece exactly when [s] holds a separator. *)
Theorem split_on_keeps_the_text (sep : char) (s : str) :
  join_on sep (split_on sep s) = s
  /\ List.length (split_on sep s) = S (count_occ N.eq_dec s sep)
  /\ ((1 < List.length (split_on sep s))%nat <-> In sep s).
Proof.
  split; [apply join_on_split_on|]. split; [apply length_split_on|].
  rewrite length_split_on, (count_occ_In N.eq_dec). lia.
Qed.

(** X15.  [s.strip()] is [s] without a run of whitespace at each end: it
    neither starts nor ends with whitespace, and stripping again changes
    nothing. *)
Theorem strip_removes_surrounding_whitespace (s : str) :
  (exists pad pad',
      blank pad = true /\ blank pad' = true /\ s = pad ++ strip s ++ pad')
  /\ (forall c t, strip s = c :: t -> isspace c = false)
  /\ (forall t c, strip s = t ++ [c] -> isspace c = false)
  /\ strip (strip s) = strip s.
Proof.
  assert (D : exists pad pad',
             blank pad = true /\ blank pad' = true
             /\ s = pad ++ strip s ++ pad').
  { destruct (lstrip_decomposition s) as (pad & Hp & Hs).
    destruct (rstrip_decomposition (lstrip s)) as (pad' & Hp' & Hs').
    exists pad, pad'. repeat split; try assumption.
    unfold strip. now rewrite <- Hs', <- Hs. }
  split; [exact D|]. split; [intros c t; apply strip_head|].
  split; [intros t c; apply strip_last|].
  destruct D as (pad & pad' & Hp & Hp' & Hs).
  rewrite Hs at 2. symmetry. now apply strip_padding.
Qed.

(** X15 at a padded line. *)
Lemma strip_removes_surrounding_whitespace_witness :
  strip (lit "  2  <none> ") = lit "2  <none>"
  /\ isspace 50%N = false.
Proof.
  split; [reflexivity|].
  destruct (strip_removes_surrounding_whitespace (lit "  2  <none> "))
    as (_ & H & _).
  apply (H 50%N (lit "  <none>")). reflexivity.
Defined.

(** ** The object *)

(** X16.  No method other than [deploy] changes the orchestrator object,
    and [deploy] changes its stored revision only: the application name and
    the namespace are those given to the constructor for the life of the
    object. *)
Theorem methods_keep_the_target
  (env : world) (s : state) (m : str) (timeout : Z) :
  self (snd (_get_current_revision env s)) = self s
  /\ self (snd (_apply_manifest env m s)) = self s
  /\ self (snd (_wait_for_rollout env timeout s)) = self s
  /\ self (snd (_check_pod_health env s)) = self s
  /\ self (snd (_check_service_endpoints env s)) = self s
  /\ self (snd (_run_health_checks env timeout s)) = self s
  /\ self (snd (_perform_rollback env s)) = self s
  /\ app_name (self (snd (deploy env m s))) = app_name (self s)
  /\ namespace (self (snd (deploy env m s))) = namespace (self s)
  /\ stores (emitted (deploy env m) s) = [captured env s].
Proof.
  rewrite get_current_revision_exact, apply_manifest_exact,
    wait_for_rollout_exact, check_pod_health_exact,
    check_service_endpoints_exact, run_health_checks_exact,
    perform_rollback_run, emitted_deploy, deploy_exact.
  repeat (split; [reflexivity|]).
  rewrite <- stores_actions, actions_deploy_events, deploy_actions_split.
  cbn [stores app]. now rewrite stores_after_apply.
Qed.

(** * Exceptions outside [Exception] *)

(** ** The two models agree on an orderly collaborator *)

Section Agreement.

Variable env : Strict.plane.
Hypothesis Horderly : Strict.orderly env.

Lemma agree_ret (A : Type) (a : A) : agree (Strict.ret a) (ret a).
Proof. intros s. reflexivity. Qed.

Lemma agree_raise (A : Type) (e : exn) :
  agree (@Strict.raise A e) (raise e).
Proof. intros s. reflexivity. Qed.

Lemma agree_bind (A B : Type) (p : Strict.Py A) (m : M A)
      (kp : A -> Strict.Py B) (km : A -> M B) :
  agree p m -> (forall a, agree (kp a) (km a)) ->
  agree (Strict.bind p kp) (bind m km).
Proof.
  intros Hp Hk s. unfold Strict.bind, bind. rewrite Hp.
  destruct (m s) as [[a|e] s']; cbn [inject]; [apply Hk|reflexivity].
Qed.

Lemma agree_try_except (A : Type) (p : Strict.Py A) (m : M A)
      (hp : exn -> Strict.Py A) (hm : exn -> M A) :
  agree p m -> (forall e, agree (hp e) (hm e)) ->
  agree (Strict.try_except p hp) (try_except m hm).
Proof.
  intros Hp Hh s. unfold Strict.try_except, try_except. rewrite Hp.
  destruct (m s) as [[a|e] s']; cbn [inject]; [reflexivity|apply Hh].
Qed.

Lemma agree_print (x : message) : agree (Strict.print x) (print x).
Proof. intros s. reflexivity. Qed.

Lemma agree_get_self : agree Strict.get_self get_self.
Proof. intros s. reflexivity. Qed.

Lemma agree_set_rollback_revision (v : option str) :
  agree (Strict.set_rollback_revision v) (set_rollback_revision v).
Proof. intros s. reflexivity. Qed.

Lemma agree_subscript0 (xs : list str) :
  agree (Strict.subscript0 xs) (subscript0 xs).
Proof. intros s. now destruct xs. Qed.

Lemma agree_returned_or (A : Type) (r : option A) (d : A) :
  agree (Strict.returned_or r d) (returned_or r d).
Proof. intros s. now destruct r. Qed.

Lemma agree_subprocess_run (c : call) :
  agree (Strict.subprocess_run env c) (subprocess_run (lower env) c).
Proof.
  intros s. unfold Strict.subprocess_run, subprocess_run, lower.
  cbn [events self].
  destruct (env (invocations (events s ++ [Run c]))) as [r|e|b] eqn:E;
    try reflexivity.
  now apply Horderly in E.
Qed.

Ltac agree_step :=
  first
    [ apply agree_ret | apply agree_raise | apply agree_print
    | apply agree_get_self | apply agree_set_rollback_revision
    | apply agree_subscript0 | apply agree_returned_or
    | apply agree_subprocess_run
    | apply agree_bind; [|intros ?]
    | apply agree_try_except; [|intros ?]
    | match goal with
      | |- agree (if ?b then _ else _) _ => destruct b
      | |- agree (match ?l with [] => _ | _ :: _ => _ end) _ => destruct l
      end
    | assumption ].

Ltac agree_all := cbv zeta; repeat (agree_step; cbv zeta).

Lemma agree_get_current_revision :
  agree (Strict._get_current_revision env)
        (_get_current_revision (lower env)).
Proof.
  unfold Strict._get_current_revision, _get_current_revision. agree_all.
Qed.

Lemma agree_apply_manifest (m : str) :
  agree (Strict._apply_manifest env m) (_apply_manifest (lower env) m).
Proof. unfold Strict._apply_manifest, _apply_manifest. agree_all. Qed.

Lemma agree_wait_for_rollout (timeout : Z) :
  agree (Strict._wait_for_rollout env timeout)
        (_wait_for_rollout (lower env) timeout).
Proof. unfold Strict._wait_for_rollout, _wait_for_rollout. agree_all. Qed.

Lemma agree_check_pod_health :
  agree (Strict._check_pod_health env) (_check_pod_health (lower env)).
Proof. unfold Strict._check_pod_health, _check_pod_health. agree_all. Qed.

Lemma agree_check_service_endpoints :
  agree (Strict._check_service_endpoints env)
        (_check_service_endpoints (lower env)).
Proof.
  unfold Strict._check_service_endpoints, _check_service_endpoints. agree_all.
Qed.

Lemma agree_run_health_checks (timeout : Z) :
  agree (Strict._run_health_checks env timeout)
        (_run_health_checks (lower env) timeout).
Proof.
  pose proof agree_check_pod_health. pose proof agree_check_service_endpoints.
  unfold Strict._run_health_checks, _run_health_checks. agree_all.
Qed.

Lemma agree_perform_rollback :
  agree (Strict._perform_rollback env) (_perform_rollback (lower env)).
Proof. unfold Strict._perform_rollback, _perform_rollback. agree_all. Qed.

(** On an orderly collaborator, [deploy] is the [deploy] of the model in
    which every raised exception is an [Exception]. *)
Lemma agree_deploy (m : str) :
  agree (Strict.deploy env m) (deploy (lower env) m).
Proof.
  pose proof agree_get_current_revision.
  pose proof (agree_apply_manifest m).
  pose proof (agree_wait_for_rollout 300).
  pose proof (agree_run_health_checks 60).
  pose proof agree_perform_rollback.
  unfold Strict.deploy, deploy. agree_all.
Qed.

End Agreement.

(** ** What is caught and what escapes *)

(** C10 (as amended).  For every behaviour of the control plane whose raised
    exceptions are instances of [Exception] (any exit status, any output
    text, any such exception), [deploy] returns a boolean: the one the model
    without other exceptions computes.  Each method that invokes the control
    plane returns as well, so no such exception leaves the method that made
    the call, and [main] ends with exit status 0 or 1. *)
Theorem deploy_returns_unless_interrupted
  (env : Strict.plane) (m : str) (s : state) :
  Strict.orderly env ->
  (exists b s', Strict.deploy env m s = (Strict.Value b, s'))
  /\ Strict.deploy env m s = inject (deploy (lower env) m s)
  /\ (exists v s', Strict._get_current_revision env s = (Strict.Value v, s'))
  /\ (exists b s', Strict._apply_manifest env m s = (Strict.Value b, s'))
  /\ (forall timeout,
        exists b s',
          Strict._wait_for_rollout env timeout s = (Strict.Value b, s'))
  /\ (exists b s', Strict._check_pod_health env s = (Strict.Value b, s'))
  /\ (exists b s',
        Strict._check_service_endpoints env s = (Strict.Value b, s'))
  /\ (forall timeout,
        exists b s',
          Strict._run_health_checks env timeout s = (Strict.Value b, s'))
  /\ (exists s', Strict._perform_rollback env s = (Strict.Value tt, s'))
  /\ (forall name ns,
        exists code s',
          Strict.main env name m ns = (Strict.Value code, s')
          /\ (code = 0 \/ code = 1)%Z).
Proof.
  intros Ho.
  split. { rewrite (agree_deploy Ho m s).
           destruct (deploy_run (lower env) m s) as (t & -> & _).
           cbn [inject]. eauto. }
  split. { apply (agree_deploy Ho). }
  split. { rewrite (agree_get_current_revision Ho s).
           rewrite get_current_revision_exact. cbn [inject]. eauto. }
  split. { rewrite (agree_apply_manifest Ho m s).
           rewrite apply_manifest_exact. cbn [inject]. eauto. }
  split. { intros timeout. rewrite (agree_wait_for_rollout Ho timeout s).
           rewrite wait_for_rollout_exact. cbn [inject]. eauto. }
  split. { rewrite (agree_check_pod_health Ho s).
           rewrite check_pod_health_exact. cbn [inject]. eauto. }
  split. { rewrite (agree_check_service_endpoints Ho s).
           rewrite check_service_endpoints_exact. cbn [inject]. eauto. }
  split. { intros timeout. rewrite (agree_run_health_checks Ho timeout s).
           rewrite run_health_checks_exact. cbn [inject]. eauto. }
  split. { rewrite (agree_perform_rollback Ho s).
           rewrite perform_rollback_run. cbn [inject]. eauto. }
  intros name ns. unfold Strict.main.
  rewrite (agree_deploy Ho m (State (init name ns) [])).
  destruct (deploy_run (lower env) m (State (init name ns) []))
    as (t & -> & _).
  cbn [inject]. destruct (deploy_verdict _ _ _); eauto.
Qed.

(** C10 at a control plane that cannot be reached: every invocation raises
    an [OSError]. *)
Lemma deploy_returns_unless_interrupted_witness :
  Strict.orderly env_down
  /\ exists b s', Strict.deploy env_down manifest fresh = (Strict.Value b, s').
Proof.
  assert (Ho : Strict.orderly env_down).
  { intros cs b. unfold env_down, Strict.scripted.
    destruct (List.length cs - 1)%nat; discriminate. }
  split; [exact Ho|].
  exact (proj1 (deploy_returns_unless_interrupted manifest fresh Ho)).
Defined.

(** C10, counterexample.  The operator interrupts the wait for the rollout:
    the [KeyboardInterrupt] raised inside [subprocess.run] is not an
    [Exception], no handler catches it, and [deploy] returns nothing. *)
Lemma interrupt_leaves_deploy :
  ~ returns_a_boolean env_interrupted manifest fresh.
Proof.
  intros (b & s' & E). vm_compute in E. discriminate E.
Qed.

(** The interrupted run: the exception leaves [deploy] right after the
    status command was invoked, with no rollback. *)
Example deploy_interrupted_during_wait :
  fst (Strict.deploy env_interrupted manifest fresh)
  = Strict.Escapes keyboard_interrupt
  /\ invocations (events (snd (Strict.deploy env_interrupted manifest fresh)))
     = upto_status fresh manifest
  /\ rollback_entries
       (events (snd (Strict.deploy env_interrupted manifest fresh))) = 0%nat.
Proof. repeat split. Qed.

Section StrictGates.

Variable env : Strict.plane.

Lemma strict_subprocess_run_eq (c : call) (s : state) :
  Strict.subprocess_run env c s =
  (match Strict.reply env s [c] with
   | Strict.Completes r => Strict.Value r
   | Strict.Raises e => Strict.Throws e
   | Strict.Interrupts b => Strict.Escapes b
   end,
   after s [Run c]).
Proof.
  unfold Strict.subprocess_run, Strict.reply, after. cbn [events self].
  rewrite invocations_app. simpl.
  now destruct (env (invocations (events s) ++ [c])).
Qed.

End StrictGates.

Ltac strict_gate H :=
  unfold Strict._get_current_revision, Strict._apply_manifest,
    Strict._wait_for_rollout, Strict._check_pod_health,
    Strict._check_service_endpoints, Strict._perform_rollback;
  unfold Strict.bind, Strict.try_except, Strict.get_self;
  rewrite ?strict_subprocess_run_eq;
  cbn [self after events];
  rewrite ?strict_subprocess_run_eq, ?H;
  unfold Strict.print, Strict.emit, Strict.ret, Strict.returned_or, after;
  cbn [self events]; rewrite <- ?app_assoc; reflexivity.

(** X10.  When its [subprocess.run] call raises an instance of [Exception],
    each method catches it, prints its own message carrying the exception
    and answers with its failure value ([None] for the tracker, [False] for
    the gates; [_perform_rollback] reports a failed rollback).  An
    exception outside [Exception] is not caught: it leaves the method right
    after the invocation, with nothing printed. *)
Theorem raised_exception_is_caught_or_escapes
  (env : Strict.plane) (s : state) :
  (forall e,
      Strict.reply env s [history_cmd (self s)] = Strict.Raises e ->
      Strict._get_current_revision env s
      = (Strict.Value None,
         after s [Run (history_cmd (self s));
                  Print (MsgCouldNotGetRevision e)]))
  /\ (forall e m,
        Strict.reply env s [apply_cmd (self s) m] = Strict.Raises e ->
        Strict._apply_manifest env m s
        = (Strict.Value false,
           after s [Run (apply_cmd (self s) m);
                    Print (MsgExceptionApplying e)]))
  /\ (forall e timeout,
        Strict.reply env s [status_cmd (self s) timeout] = Strict.Raises e ->
        Strict._wait_for_rollout env timeout s
        = (Strict.Value false,
           after s [Run (status_cmd (self s) timeout);
                    Print (MsgExceptionWaiting e)]))
  /\ (forall e,
        Strict.reply env s [pods_cmd (self s)] = Strict.Raises e ->
        Strict._check_pod_health env s
        = (Strict.Value false,
           after s [Run (pods_cmd (self s)); Print (MsgErrorPodHealth e)]))
  /\ (forall e,
        Strict.reply env s [endpoints_cmd (self s)] = Strict.Raises e ->
        Strict._check_service_endpoints env s
        = (Strict.Value false,
           after s [Run (endpoints_cmd (self s));
                    Print (MsgErrorEndpoints e)]))
  /\ (forall e,
        truthy (rollback_revision (self s)) = true ->
        Strict.reply env s [undo_cmd (self s)] = Strict.Raises e ->
        Strict._perform_rollback env s
        = (Strict.Value tt,
           after s [Print (MsgRollingBack
                             (format_opt (rollback_revision (self s))));
                    Run (undo_cmd (self s));
                    Print (MsgRollbackFailed e)]))
  /\ (forall b,
        Strict.reply env s [history_cmd (self s)] = Strict.Interrupts b ->
        Strict._get_current_revision env s
        = (Strict.Escapes b, after s [Run (history_cmd (self s))]))
  /\ (forall b m,
        Strict.reply env s [apply_cmd (self s) m] = Strict.Interrupts b ->
        Strict._apply_manifest env m s
        = (Strict.Escapes b, after s [Run (apply_cmd (self s) m)]))
  /\ (forall b timeout,
        Strict.reply env s [status_cmd (self s) timeout]
        = Strict.Interrupts b ->
        Strict._wait_for_rollout env timeout s
        = (Strict.Escapes b, after s [Run (status_cmd (self s) timeout)]))
  /\ (forall b,
        Strict.reply env s [pods_cmd (self s)] = Strict.Interrupts b ->
        Strict._check_pod_health env s
        = (Strict.Escapes b, after s [Run (pods_cmd (self s))]))
  /\ (forall b,
        Strict.reply env s [endpoints_cmd (self s)] = Strict.Interrupts b ->
        Strict._check_service_endpoints env s
        = (Strict.Escapes b, after s [Run (endpoints_cmd (self s))]))
  /\ (forall b,
        truthy (rollback_revision (self s)) = true ->
        Strict.reply env s [undo_cmd (self s)] = Strict.Interrupts b ->
        Strict._perform_rollback env s
        = (Strict.Escapes b,
           after s [Print (MsgRollingBack
                             (format_opt (rollback_revision (self s))));
                    Run (undo_cmd (self s))])).
Proof.
  assert (RB : forall x : message,
             Strict.reply env (State (self s) (events s ++ [Print x]))
               [undo_cmd (self s)]
             = Strict.reply env s [undo_cmd (self s)]).
  { intros x. unfold Strict.reply. cbn [events].
    now rewrite invocations_app, app_nil_r. }
  repeat split; intros.
  1-5, 7-11: match goal with H : Strict.reply _ _ _ = _ |- _ =>
               strict_gate H end.
  - unfold Strict._perform_rollback, Strict.bind, Strict.get_self.
    rewrite H. cbn [negb]. unfold Strict.print, Strict.emit, Strict.try_except,
      Strict.bind.
    rewrite strict_subprocess_run_eq, RB, H0.
    unfold after. cbn [self events]. now rewrite <- ?app_assoc.
  - unfold Strict._perform_rollback, Strict.bind, Strict.get_self.
    rewrite H. cbn [negb]. unfold Strict.print, Strict.emit, Strict.try_except,
      Strict.bind.
    rewrite strict_subprocess_run_eq, RB, H0.
    unfold after. cbn [self events]. now rewrite <- ?app_assoc.
Qed.

(** X10 at a control plane that cannot be reached, and at an interrupted
    wait. *)
Lemma raised_exception_is_caught_or_escapes_witness :
  Strict._check_pod_health env_down fresh
  = (Strict.Value false,
     after fresh [Run (pods_cmd web);
                  Print (MsgErrorPodHealth
                           (Exception "OSError" (lit "kubectl: not found")))])
  /\ Strict._wait_for_rollout
       (Strict.scripted [Strict.Interrupts keyboard_interrupt]) 300 fresh
     = (Strict.Escapes keyboard_interrupt,
        after fresh [Run (status_cmd web 300)]).
Proof.
  split.
  - destruct (raised_exception_is_caught_or_escapes env_down fresh)
      as (_ & _ & _ & H & _).
    apply H. reflexivity.
  - destruct (raised_exception_is_caught_or_escapes
                (Strict.scripted [Strict.Interrupts keyboard_interrupt])
                fresh)
      as (_ & _ & _ & _ & _ & _ & _ & _ & H & _).
    apply H. reflexivity.
Defined.

(** * Where the code departs from its specification *)

(** C1 (the code departs from the claim).  The manifest is rejected while
    revision 2 is tracked: the Applier fails, and [deploy] prints the
    failure and returns [False] without entering [_perform_rollback], which
    the two other failure branches of [deploy] do enter. *)
Theorem apply_failure_returns_without_rollback :
  applier_failed env_apply_rejected fresh manifest = true
  /\ deploy env_apply_rejected manifest fresh
     = (Ok false,
        State (Orchestrator (lit "web") (lit "default") (Some (lit "2")))
          [Print (MsgStarting (lit "web"));
           Run (history_cmd web);
           SetRollbackRevision (Some (lit "2"));
           Print (MsgCurrentRevision (lit "2"));
           Run (apply_cmd web manifest);
           Print (MsgErrorApplying (lit "error: validation failed"));
           Print MsgFailedToApply])
  /\ rollback_entries
       (events (snd (deploy env_apply_rejected manifest fresh))) = 0%nat.
Proof. split; [reflexivity|]. split; reflexivity. Qed.

(** C5 (the code departs from the claim).  The control plane rejects the
    undo request with exit status 1: [_perform_rollback] does not look at
    the status and prints ["Rollback initiated"], in a whole run of
    [deploy] as well. *)
Theorem rejected_undo_is_reported_as_initiated :
  reply env_rejecting_undo web_at_2 [undo_cmd (self web_at_2)]
  = rejects "error: unable to find specified revision"
  /\ exit_zero (reply env_rejecting_undo web_at_2 [undo_cmd (self web_at_2)])
     = false
  /\ _perform_rollback env_rejecting_undo web_at_2
     = (Ok tt,
        after web_at_2
          [Print (MsgRollingBack (lit "2")); Run (undo_cmd (self web_at_2));
           Print MsgRollbackInitiated])
  /\ fst (deploy env_undo_rejected manifest fresh) = Ok false
  /\ In (Print MsgRollbackInitiated)
        (events (snd (deploy env_undo_rejected manifest fresh))).
Proof.
  split; [reflexivity|]. split; [reflexivity|]. split; [reflexivity|].
  split; [reflexivity|]. vm_compute. tauto.
Qed.

(** C6 (the code departs from the claim).  On a first deployment whose
    manifest is rejected, no revision is tracked and the Applier fails, yet
    [_perform_rollback] is not entered: [deploy] returns [False] without
    the notice ["No previous revision to rollback to"]. *)
Theorem first_deploy_apply_failure_logs_no_notice :
  captured env_first_deploy_apply_rejected fresh = None
  /\ applier_failed env_first_deploy_apply_rejected fresh manifest = true
  /\ deploy env_first_deploy_apply_rejected manifest fresh
     = (Ok false,
        State web
          [Print (MsgStarting (lit "web"));
           Run (history_cmd web);
           SetRollbackRevision None;
           Print (MsgCurrentRevision (lit "None (first deployment)"));
           Run (apply_cmd web manifest);
           Print (MsgErrorApplying (lit "error: validation failed"));
           Print MsgFailedToApply])
  /\ ~ In (Print MsgNoPreviousRevision)
          (events (snd (deploy env_first_deploy_apply_rejected manifest
                          fresh))).
Proof.
  split; [reflexivity|]. split; [reflexivity|]. split; [reflexivity|].
  vm_compute. intuition discriminate.
Qed.

(** C7 (the code departs from the claim).  For a deployment without history
    the query exits with status 0 and prints two lines, none of them a
    record: [_get_current_revision] returns the first word of the last
    line, ["No"], and ["REVISION"] for a listing with headers only; a run
    whose rollout then fails asks to undo to revision ["No"]. *)
Theorem no_history_text_is_read_as_a_revision :
  _get_current_revision (scripted [completes no_history_text]) fresh
  = (Ok (Some (lit "No")), after fresh [Run (history_cmd web)])
  /\ _get_current_revision (scripted [completes header_only_text]) fresh
     = (Ok (Some (lit "REVISION")), after fresh [Run (history_cmd web)])
  /\ In (undo_cmd (Orchestrator (lit "web") (lit "default")
                     (Some (lit "No"))))
        (invocations
           (events (snd (deploy env_no_history_rollout_failed manifest
                           fresh))))
  /\ nth_error
       (argv (undo_cmd (Orchestrator (lit "web") (lit "default")
                          (Some (lit "No"))))) 4
     = Some (lit "--to-revision=No").
Proof.
  split; [reflexivity|]. split; [reflexivity|]. split; [|reflexivity].
  vm_compute. tauto.
Qed.
